(** * DripScript: the rule-based clothing labeler and outfit engine

    A shallow embedding of [ai-ml/clothing_ai.py]: the taxonomy enumerations,
    [ClothingLabeler], [OutfitSuggestionEngine], the keyword extractors of
    [HuggingFaceIntegration] and the fallback parser of [ClothingAI].

    Modelling conventions.
    - A Python [str] is a [string]; a character is a code point below 256
      and [lower] is Python's [str.lower] on that range.
    - A Python [int] is a [Z].  A quotient of two integers ([/]) is the exact
      rational of type [Q] whose nearest double Python returns; the quotients
      of this program are compared with [0] and [1] only.
    - An exception is a value of [exn]; code that can raise returns an
      [outcome].  [random.choice] reads the next number of a tape, so code
      that draws random values is a function of the tape ([Rnd]).
    - The dictionary [vibe_rules] is a [gmap] keyed by the vibe name; a rule,
      a dictionary with optional keys, is a record of optional fields.  The
      keyword tables, which the code iterates in insertion order, are
      association lists. *)

From Stdlib Require Import String Ascii ZArith QArith Qminmax List Bool Lia.
From stdpp Require Import gmap strings.
Import ListNotations.
Open Scope string_scope.
Open Scope list_scope.
Open Scope Z_scope.

(** ** Taxonomy *)

Inductive ClothingType :=
  | HOODIE | T_SHIRT | JEANS | SHORTS | JACKET | SWEATER
  | DRESS | SKIRT | PANTS | SNEAKERS | BOOTS | SANDALS.

Inductive Style := CASUAL | FORMAL | SPORTY | TRENDY | VINTAGE | MINIMALIST.

Inductive WeatherType := HOT | WARM | MILD | COOL | COLD | RAINY | SNOWY.

Definition ClothingType_value (t : ClothingType) : string :=
  match t with
  | HOODIE => "hoodie" | T_SHIRT => "t-shirt" | JEANS => "jeans"
  | SHORTS => "shorts" | JACKET => "jacket" | SWEATER => "sweater"
  | DRESS => "dress" | SKIRT => "skirt" | PANTS => "pants"
  | SNEAKERS => "sneakers" | BOOTS => "boots" | SANDALS => "sandals"
  end.

Definition Style_value (s : Style) : string :=
  match s with
  | CASUAL => "casual" | FORMAL => "formal" | SPORTY => "sporty"
  | TRENDY => "trendy" | VINTAGE => "vintage" | MINIMALIST => "minimalist"
  end.

Definition WeatherType_value (w : WeatherType) : string :=
  match w with
  | HOT => "hot" | WARM => "warm" | MILD => "mild" | COOL => "cool"
  | COLD => "cold" | RAINY => "rainy" | SNOWY => "snowy"
  end.

Definition WeatherType_members : list WeatherType :=
  [HOT; WARM; MILD; COOL; COLD; RAINY; SNOWY].

Definition ClothingType_eqb (a b : ClothingType) : bool :=
  match a, b with
  | HOODIE, HOODIE | T_SHIRT, T_SHIRT | JEANS, JEANS | SHORTS, SHORTS
  | JACKET, JACKET | SWEATER, SWEATER | DRESS, DRESS | SKIRT, SKIRT
  | PANTS, PANTS | SNEAKERS, SNEAKERS | BOOTS, BOOTS | SANDALS, SANDALS => true
  | _, _ => false
  end.

Definition Style_eqb (a b : Style) : bool :=
  match a, b with
  | CASUAL, CASUAL | FORMAL, FORMAL | SPORTY, SPORTY
  | TRENDY, TRENDY | VINTAGE, VINTAGE | MINIMALIST, MINIMALIST => true
  | _, _ => false
  end.

Definition WeatherType_eqb (a b : WeatherType) : bool :=
  match a, b with
  | HOT, HOT | WARM, WARM | MILD, MILD | COOL, COOL
  | COLD, COLD | RAINY, RAINY | SNOWY, SNOWY => true
  | _, _ => false
  end.

(** [x in xs] on enumeration members and on strings. *)
Definition type_in (t : ClothingType) (ts : list ClothingType) : bool :=
  existsb (ClothingType_eqb t) ts.
Definition style_in (s : Style) (ss : list Style) : bool :=
  existsb (Style_eqb s) ss.
Definition weather_in (w : WeatherType) (ws : list WeatherType) : bool :=
  existsb (WeatherType_eqb w) ws.
Definition word_in (w : string) (ws : list string) : bool :=
  existsb (String.eqb w) ws.

Record ClothingItem := {
  name : string;
  type : ClothingType;
  style : Style;
  weather_suitability : list WeatherType;
  color : string;
  season : list string;
  formality_level : Z;
  warmth_rating : Z
}.

(** ** Exceptions and random choices *)

Inductive exn := ValueError | IndexError | ZeroDivisionError.

Inductive outcome (A : Type) :=
  | Return (a : A)
  | Raise (e : exn).
Arguments Return {A} a.
Arguments Raise {A} e.

(** The tape of the numbers the random source will produce. *)
Definition tape := list nat.

Definition Rnd (A : Type) : Type := tape -> outcome A * tape.

Definition ret {A} (a : A) : Rnd A := fun t => (Return a, t).

Definition bind {A B} (m : Rnd A) (f : A -> Rnd B) : Rnd B :=
  fun t => match m t with
           | (Return a, t') => f a t'
           | (Raise e, t') => (Raise e, t')
           end.

Definition lift {A} (o : outcome A) : Rnd A := fun t => (o, t).

Notation "'do' x <- m ; k" := (bind m (fun x => k))
  (at level 10, x name, m at level 100, k at level 200).

Definition draw : Rnd nat :=
  fun t => match t with
           | [] => (Return 0%nat, [])
           | n :: t' => (Return n, t')
           end.

(** [random.choice(seq)]: [IndexError] on an empty sequence, otherwise the
    element at a random index below [len(seq)]. *)
Definition random_choice {A} (seq : list A) : Rnd A :=
  match seq with
  | [] => lift (Raise IndexError)
  | x :: _ => do n <- draw; ret (nth (n mod List.length seq) seq x)
  end.

(** ** Strings *)

(** [str.lower] on one character: A-Z and the Latin-1 capitals
    (U+00C0-U+00DE without the multiplication sign U+00D7) move up by 32. *)
Definition lower_char (c : ascii) : ascii :=
  let n := nat_of_ascii c in
  if ((65 <=? n) && (n <=? 90))%nat then ascii_of_nat (n + 32)
  else if ((192 <=? n) && (n <=? 222) && negb (n =? 215))%nat
       then ascii_of_nat (n + 32)
  else c.

Fixpoint lower (s : string) : string :=
  match s with
  | EmptyString => EmptyString
  | String c s' => String (lower_char c) (lower s')
  end.

(** [kw in s] on strings: [kw] occurs in [s] as a substring. *)
Fixpoint str_in (kw s : string) : bool :=
  String.prefix kw s ||
  match s with
  | EmptyString => false
  | String _ s' => str_in kw s'
  end.

(** [any(keyword in s for keyword in keywords)] *)
Definition any_in (keywords : list string) (s : string) : bool :=
  existsb (fun keyword => str_in keyword s) keywords.

(** [str.isspace] on one character. *)
Definition isspace (c : ascii) : bool :=
  let n := nat_of_ascii c in
  ((9 <=? n) && (n <=? 13) || (28 <=? n) && (n <=? 32)
   || (n =? 133) || (n =? 160))%nat.

Fixpoint split_from (word : string) (s : string) : list string :=
  match s with
  | EmptyString => if String.eqb word EmptyString then [] else [word]
  | String c s' =>
      if isspace c
      then (if String.eqb word EmptyString then split_from EmptyString s'
            else word :: split_from EmptyString s')
      else split_from (word ++ String c EmptyString)%string s'
  end.

(** [s.split()]: the maximal runs of characters that are not whitespace. *)
Definition split (s : string) : list string := split_from EmptyString s.

(** [sep.join(parts)] *)
Fixpoint join (sep : string) (parts : list string) : string :=
  match parts with
  | [] => EmptyString
  | [p] => p
  | p :: ps => (p ++ sep ++ join sep ps)%string
  end.

(** [sum(1 for x in xs if p(x))] *)
Definition count_if {A} (p : A -> bool) (xs : list A) : Z :=
  Z.of_nat (List.length (List.filter p xs)).

(** [len(xs)] *)
Definition len {A} (xs : list A) : Z := Z.of_nat (List.length xs).

(** Truthiness of a list. *)
Definition nonempty {A} (xs : list A) : bool :=
  match xs with [] => false | _ => true end.

(** [a / b] on integers. *)
Definition truediv (a b : Z) : outcome Q :=
  if b =? 0 then Raise ZeroDivisionError
  else Return (inject_Z a / inject_Z b)%Q.

(** ** ClothingLabeler *)

Module ClothingLabeler.

Definition clothing_keywords : list (ClothingType * list string) :=
  [ (HOODIE, ["hoodie"; "hooded"; "pullover"]);
    (T_SHIRT, ["t-shirt"; "tee"; "shirt"; "top"]);
    (JEANS, ["jeans"; "denim"]);
    (SHORTS, ["shorts"; "short pants"]);
    (JACKET, ["jacket"; "blazer"; "coat"]);
    (SWEATER, ["sweater"; "jumper"; "cardigan"]);
    (DRESS, ["dress"; "gown"]);
    (SKIRT, ["skirt"; "mini"; "maxi"]);
    (PANTS, ["pants"; "trousers"; "slacks"]);
    (SNEAKERS, ["sneakers"; "trainers"; "athletic shoes"]);
    (BOOTS, ["boots"; "ankle boots"; "hiking boots"]);
    (SANDALS, ["sandals"; "flip flops"; "slides"]) ].

Definition style_keywords : list (Style * list string) :=
  [ (CASUAL, ["casual"; "relaxed"; "comfortable"; "everyday"]);
    (FORMAL, ["formal"; "business"; "professional"; "elegant"]);
    (SPORTY, ["sporty"; "athletic"; "active"; "gym"]);
    (TRENDY, ["trendy"; "fashionable"; "stylish"; "modern"]);
    (VINTAGE, ["vintage"; "retro"; "classic"; "old-school"]);
    (MINIMALIST, ["minimalist"; "simple"; "clean"; "basic"]) ].

(** The first loop of [label_clothing_from_text]: the first entry of the
    table with a keyword in the text, [None] when the loop ends without
    a [break]. *)
Fixpoint detect_type (table : list (ClothingType * list string))
    (description_lower : string) : option ClothingType :=
  match table with
  | [] => None
  | (clothing_type, keywords) :: rest =>
      if any_in keywords description_lower then Some clothing_type
      else detect_type rest description_lower
  end.

(** The second loop: every style with a keyword in the text. *)
Definition detect_styles (table : list (Style * list string))
    (description_lower : string) : list Style :=
  map fst (List.filter (fun e => any_in (snd e) description_lower) table).

Definition weather_keywords : list (WeatherType * list string) :=
  [ (HOT, ["summer"; "hot"; "breathable"; "light"; "cooling"]);
    (WARM, ["warm"; "spring"; "light"]);
    (MILD, ["mild"; "transitional"; "layering"]);
    (COOL, ["cool"; "fall"; "autumn"; "light jacket"]);
    (COLD, ["winter"; "cold"; "thick"; "insulated"; "warm"]);
    (RAINY, ["waterproof"; "rain"; "water-resistant"]);
    (SNOWY, ["snow"; "insulated"; "thermal"; "heavy"]) ].

Definition _predict_weather_suitability (description : string)
    : list WeatherType :=
  let suitable_weather :=
    map fst (List.filter (fun e => any_in (snd e) description) weather_keywords) in
  if negb (nonempty suitable_weather) then
    if any_in ["hoodie"; "sweater"; "jacket"] description then [COOL; COLD]
    else if any_in ["t-shirt"; "shorts"; "sandals"] description then [HOT; WARM]
    else [MILD]
  else suitable_weather.

Definition formal_keywords : list string :=
  ["formal"; "business"; "professional"; "suit"; "dress shirt"].
Definition casual_keywords : list string :=
  ["casual"; "relaxed"; "hoodie"; "jeans"; "t-shirt"].

Definition _predict_formality (description : string) : Z :=
  let formal_score := count_if (fun keyword => str_in keyword description) formal_keywords in
  let casual_score := count_if (fun keyword => str_in keyword description) casual_keywords in
  if formal_score >? casual_score then Z.min (7 + formal_score) 10
  else if casual_score >? formal_score then Z.max (3 - casual_score) 1
  else 5.

Definition warm_keywords : list string :=
  ["thick"; "insulated"; "wool"; "fleece"; "down"; "winter"].
Definition cool_keywords : list string :=
  ["light"; "breathable"; "cotton"; "linen"; "summer"].

Definition _predict_warmth (description : string) : Z :=
  let warm_score := count_if (fun keyword => str_in keyword description) warm_keywords in
  let cool_score := count_if (fun keyword => str_in keyword description) cool_keywords in
  let base_warmth := 5 in
  Z.max 1 (Z.min 10 (base_warmth + warm_score - cool_score)).

Definition all_keywords : list string :=
  concat (map snd clothing_keywords) ++ concat (map snd style_keywords).

Definition _calculate_confidence (description : string) : outcome Q :=
  let total_keywords := len (split description) in
  let matched_keywords := count_if (fun word => word_in word all_keywords) (split description) in
  match truediv matched_keywords (Z.max 1 total_keywords) with
  | Return q => Return (Qmin 1 (q * 2))
  | Raise e => Raise e
  end.

(** The dictionary [label_clothing_from_text] returns. *)
Record Labels := {
  l_type : string;
  l_styles : list string;
  l_weather_suitability : list string;
  l_formality_level : Z;
  l_warmth_rating : Z;
  l_confidence : Q
}.

Definition label_clothing_from_text (description : string) : outcome Labels :=
  let description_lower := lower description in
  let detected_type := detect_type clothing_keywords description_lower in
  let detected_styles := detect_styles style_keywords description_lower in
  let weather_suitability := _predict_weather_suitability description_lower in
  let formality := _predict_formality description_lower in
  let warmth := _predict_warmth description_lower in
  match _calculate_confidence description_lower with
  | Return confidence =>
      Return {| l_type := match detected_type with
                          | Some t => ClothingType_value t
                          | None => "unknown"
                          end;
                l_styles := map Style_value detected_styles;
                l_weather_suitability := map WeatherType_value weather_suitability;
                l_formality_level := formality;
                l_warmth_rating := warmth;
                l_confidence := confidence |}
  | Raise e => Raise e
  end.

End ClothingLabeler.

(** ** OutfitSuggestionEngine *)

Module OutfitSuggestionEngine.

(** An entry of ["weather_rules"]. *)
Record WeatherRule := {
  w_preferred_types : option (list ClothingType);
  w_avoid_types : option (list ClothingType);
  w_max_warmth : option Z;
  w_min_warmth : option Z
}.

(** An entry of ["vibe_rules"]: [None] is an absent key. *)
Record VibeRule := {
  preferred_styles : option (list Style);
  avoid_styles : option (list Style);
  min_formality : option Z;
  max_formality : option Z;
  preferred_types : option (list ClothingType);
  avoid_types : option (list ClothingType)
}.

(** The empty dictionary [{}]. *)
Definition no_rule : VibeRule :=
  {| preferred_styles := None; avoid_styles := None; min_formality := None;
     max_formality := None; preferred_types := None; avoid_types := None |}.

Record OutfitRules := {
  weather_rules : list (WeatherType * WeatherRule);
  vibe_rules : gmap string VibeRule
}.

(** The state of an engine: [self.wardrobe] and [self.outfit_rules]. *)
Record t := {
  wardrobe : list ClothingItem;
  outfit_rules : OutfitRules
}.

Definition item (name : string) (type : ClothingType) (style : Style)
    (weather_suitability : list WeatherType) (color : string)
    (season : list string) (formality_level warmth_rating : Z) : ClothingItem :=
  Build_ClothingItem name type style weather_suitability color season
    formality_level warmth_rating.

Definition _initialize_sample_wardrobe : list ClothingItem :=
  [ item "Basic White Tee" T_SHIRT CASUAL [HOT; WARM] "white" ["spring"; "summer"] 3 2;
    item "Gray Hoodie" HOODIE CASUAL [COOL; COLD] "gray" ["fall"; "winter"] 2 7;
    item "Blue Jeans" JEANS CASUAL [MILD; COOL] "blue" ["all"] 4 5;
    item "Summer Dress" DRESS CASUAL [HOT; WARM] "floral" ["spring"; "summer"] 6 2;
    item "White Sneakers" SNEAKERS CASUAL [MILD; WARM; HOT] "white" ["all"] 3 4;
    item "Navy Blazer" JACKET FORMAL [MILD; COOL] "navy" ["all"] 9 5;
    item "White Dress Shirt" T_SHIRT FORMAL [MILD; COOL; WARM] "white" ["all"] 8 3;
    item "Black Dress Pants" PANTS FORMAL [MILD; COOL] "black" ["all"] 8 4;
    item "Black Oxford Shoes" BOOTS FORMAL [MILD; COOL] "black" ["all"] 9 3;
    item "Leather Jacket" JACKET TRENDY [COOL] "black" ["fall"; "spring"] 7 6;
    item "Skinny Black Jeans" JEANS TRENDY [MILD; COOL] "black" ["all"] 6 4;
    item "Winter Boots" BOOTS CASUAL [COLD; SNOWY] "brown" ["winter"] 4 8;
    item "Rain Jacket" JACKET CASUAL [RAINY; COOL] "navy" ["all"] 4 6;
    item "Cotton Shorts" SHORTS CASUAL [HOT; WARM] "khaki" ["summer"] 3 1;
    item "Wool Sweater" SWEATER CASUAL [COLD; COOL] "gray" ["winter"; "fall"] 5 8;
    item "Waterproof Boots" BOOTS CASUAL [RAINY; COLD] "black" ["all"] 4 7 ].

Definition _initialize_outfit_rules : OutfitRules :=
  {| weather_rules :=
       [ (HOT, {| w_preferred_types := Some [T_SHIRT; SHORTS; DRESS];
                  w_avoid_types := Some [HOODIE; JACKET; BOOTS];
                  w_max_warmth := Some 4; w_min_warmth := None |});
         (COLD, {| w_preferred_types := Some [HOODIE; JACKET; BOOTS];
                   w_avoid_types := Some [SHORTS; SANDALS];
                   w_max_warmth := None; w_min_warmth := Some 6 |}) ];
     vibe_rules :=
       <["casual" :=
          {| preferred_styles := Some [CASUAL]; avoid_styles := None;
             min_formality := None; max_formality := Some 6;
             preferred_types := None; avoid_types := Some [] |}]>
       (<["professional" :=
          {| preferred_styles := Some [FORMAL]; avoid_styles := None;
             min_formality := Some 7; max_formality := None;
             preferred_types := Some [JACKET; PANTS; T_SHIRT];
             avoid_types := Some [HOODIE; SHORTS] |}]>
       (<["business" :=
          {| preferred_styles := Some [FORMAL]; avoid_styles := None;
             min_formality := Some 8; max_formality := None;
             preferred_types := Some [JACKET; PANTS; T_SHIRT];
             avoid_types := Some [HOODIE; SHORTS; JEANS] |}]>
       (<["trendy" :=
          {| preferred_styles := Some [TRENDY]; avoid_styles := Some [VINTAGE];
             min_formality := Some 5; max_formality := None;
             preferred_types := None; avoid_types := None |}]>
       (<["sporty" :=
          {| preferred_styles := Some [SPORTY; CASUAL]; avoid_styles := None;
             min_formality := None; max_formality := Some 4;
             preferred_types := None; avoid_types := None |}]> ∅)))) |}.

(** [__init__] *)
Definition init : t :=
  {| wardrobe := _initialize_sample_wardrobe;
     outfit_rules := _initialize_outfit_rules |}.

(** [WeatherType(value)]: the member with that value, [ValueError] when
    there is none. *)
Definition WeatherType_of_value (value : string) : outcome WeatherType :=
  match find (fun w => String.eqb (WeatherType_value w) value) WeatherType_members with
  | Some w => Return w
  | None => Raise ValueError
  end.

(** The [try ... except ValueError] at the head of [suggest_outfit]. *)
Definition weather_enum_of (weather : string) : outcome WeatherType :=
  match WeatherType_of_value (lower weather) with
  | Raise ValueError => Return MILD
  | o => o
  end.

Definition _filter_items_by_weather (self : t) (weather : WeatherType)
    : list ClothingItem :=
  List.filter (fun item => weather_in weather (weather_suitability item))
    (wardrobe self).

(** One turn of the first loop of [_filter_items_by_vibe]: [false] when
    the item meets a [continue], [true] when it is appended. *)
Definition vibe_keeps (vibe_rules : VibeRule) (item : ClothingItem) : bool :=
  if match min_formality vibe_rules with
     | Some m => formality_level item <? m
     | None => false
     end then false
  else if match max_formality vibe_rules with
          | Some m => formality_level item >? m
          | None => false
          end then false
  else if match avoid_types vibe_rules with
          | Some ts => type_in (type item) ts
          | None => false
          end then false
  else if match preferred_styles vibe_rules with
          | Some ss => (len ss >? 0) && negb (style_in (style item) ss)
          | None => false
          end then false
  else if match avoid_styles vibe_rules with
          | Some ss => style_in (style item) ss
          | None => false
          end then false
  else true.

Definition _filter_items_by_vibe (self : t) (items : list ClothingItem)
    (vibe : string) : list ClothingItem :=
  let vibe_rules := default no_rule (vibe_rules (outfit_rules self) !! vibe) in
  let filtered_items := List.filter (vibe_keeps vibe_rules) items in
  let filtered_items :=
    if negb (nonempty filtered_items) && word_in vibe ["professional"; "business"]
    then filtered_items ++ List.filter (fun item => formality_level item >=? 6) items
    else filtered_items in
  if nonempty filtered_items then filtered_items else items.

Definition is_formal (item : ClothingItem) : bool := formality_level item >=? 7.

Definition _create_outfit_combination (items : list ClothingItem)
    : Rnd (list ClothingItem) :=
  let outfit := [] in
  let tops := List.filter (fun item => type_in (type item) [T_SHIRT; HOODIE; SWEATER]) items in
  let bottoms := List.filter (fun item => type_in (type item) [JEANS; SHORTS; PANTS]) items in
  let dresses := List.filter (fun item => ClothingType_eqb (type item) DRESS) items in
  let shoes := List.filter (fun item => type_in (type item) [SNEAKERS; BOOTS; SANDALS]) items in
  let outerwear := List.filter (fun item => ClothingType_eqb (type item) JACKET) items in
  let formal_items := List.filter is_formal items in
  let has_formal_items := len formal_items >? 0 in
  do choose_dress <-
    (if nonempty dresses
     then (if negb has_formal_items then ret true else random_choice [true; false])
     else ret false);
  do outfit <-
    (if choose_dress
     then do x <- random_choice dresses; ret (outfit ++ [x])
     else if has_formal_items then
       let formal_tops := List.filter is_formal tops in
       let formal_bottoms := List.filter is_formal bottoms in
       do outfit <-
         (if nonempty formal_tops
          then do x <- random_choice formal_tops; ret (outfit ++ [x])
          else if nonempty tops
          then do x <- random_choice tops; ret (outfit ++ [x])
          else ret outfit);
       if nonempty formal_bottoms
       then do x <- random_choice formal_bottoms; ret (outfit ++ [x])
       else if nonempty bottoms
       then do x <- random_choice bottoms; ret (outfit ++ [x])
       else ret outfit
     else
       do outfit <-
         (if nonempty tops
          then do x <- random_choice tops; ret (outfit ++ [x])
          else ret outfit);
       if nonempty bottoms
       then do x <- random_choice bottoms; ret (outfit ++ [x])
       else ret outfit);
  do outfit <-
    (if nonempty shoes then
       if has_formal_items then
         let formal_shoes := List.filter is_formal shoes in
         if nonempty formal_shoes
         then do x <- random_choice formal_shoes; ret (outfit ++ [x])
         else do x <- random_choice shoes; ret (outfit ++ [x])
       else do x <- random_choice shoes; ret (outfit ++ [x])
     else ret outfit);
  do outfit <-
    (if nonempty outerwear then
       let weather_needs_outerwear :=
         existsb (fun item => type_in (type item) [JACKET] &&
                    existsb (fun weather => weather_in weather (weather_suitability item))
                      [COLD; RAINY])
           outerwear in
       let formal_needs_outerwear :=
         has_formal_items && existsb is_formal outerwear in
       do add <-
         (if weather_needs_outerwear then ret true
          else if formal_needs_outerwear then ret true
          else random_choice [true; false]);
       if add then
         if has_formal_items then
           let formal_outerwear := List.filter is_formal outerwear in
           if nonempty formal_outerwear
           then do x <- random_choice formal_outerwear; ret (outfit ++ [x])
           else do x <- random_choice outerwear; ret (outfit ++ [x])
         else do x <- random_choice outerwear; ret (outfit ++ [x])
       else ret outfit
     else ret outfit);
  ret outfit.

Definition _generate_outfit_reasoning (outfit : list ClothingItem)
    (weather vibe : string) : string :=
  let reasons :=
    map (fun item => (name item ++ " is perfect for " ++ weather ++ " weather")%string)
      outfit in
  let reasons :=
    reasons ++ [("This combination matches your " ++ vibe ++ " vibe")%string] in
  (join ". " reasons ++ ".")%string.

Definition _calculate_outfit_confidence (outfit : list ClothingItem)
    (weather : WeatherType) (vibe : string) : outcome Q :=
  if negb (nonempty outfit) then Return 0%Q
  else
    truediv (count_if (fun item => weather_in weather (weather_suitability item)) outfit)
            (len outfit).

(** An entry of ["items_details"]. *)
Record ItemDetails := {
  d_name : string;
  d_type : string;
  d_style : string;
  d_color : string
}.

Definition details_of (item : ClothingItem) : ItemDetails :=
  {| d_name := name item;
     d_type := ClothingType_value (type item);
     d_style := Style_value (style item);
     d_color := color item |}.

(** The dictionary [suggest_outfit] returns. *)
Record Suggestion := {
  s_outfit : list string;
  s_items_details : list ItemDetails;
  s_reasoning : string;
  s_weather : string;
  s_vibe : string;
  s_confidence : Q
}.

Definition suggest_outfit (self : t) (weather vibe occasion : string)
    : Rnd Suggestion :=
  do weather_enum <- lift (weather_enum_of weather);
  let suitable_items := _filter_items_by_weather self weather_enum in
  let suitable_items := _filter_items_by_vibe self suitable_items (lower vibe) in
  do outfit <- _create_outfit_combination suitable_items;
  let reasoning := _generate_outfit_reasoning outfit weather vibe in
  do confidence <- lift (_calculate_outfit_confidence outfit weather_enum vibe);
  ret {| s_outfit := map name outfit;
         s_items_details := map details_of outfit;
         s_reasoning := reasoning;
         s_weather := weather;
         s_vibe := vibe;
         s_confidence := confidence |}.

End OutfitSuggestionEngine.

(** ** HuggingFaceIntegration: the keyword extractors *)

Module HuggingFaceIntegration.

(** The loop shared by the three extractors: the key of the first entry
    with a keyword in the text, the default when no entry has one. *)
Fixpoint first_pattern (patterns : list (string * list string))
    (text_lower : string) (default : string) : string :=
  match patterns with
  | [] => default
  | (key, keywords) :: rest =>
      if any_in keywords text_lower then key
      else first_pattern rest text_lower default
  end.

Definition weather_patterns : list (string * list string) :=
  [ ("hot", ["hot"; "sunny"; "warm"; "summer"; "heat"]);
    ("cold", ["cold"; "winter"; "freezing"; "chilly"; "snow"]);
    ("rainy", ["rain"; "wet"; "drizzle"; "storm"; "umbrella"]);
    ("mild", ["mild"; "pleasant"; "moderate"; "spring"; "fall"]) ].

Definition vibe_patterns : list (string * list string) :=
  [ ("business", ["business"; "meeting"; "presentation"; "corporate"; "executive"]);
    ("professional", ["professional"; "work"; "office"; "formal"]);
    ("casual", ["casual"; "relaxed"; "comfortable"; "laid-back"; "everyday"]);
    ("trendy", ["trendy"; "stylish"; "fashionable"; "hip"; "cool"; "modern"]);
    ("sporty", ["sporty"; "athletic"; "gym"; "workout"; "active"; "exercise"]) ].

Definition occasion_patterns : list (string * list string) :=
  [ ("date", ["date"; "romantic"; "dinner"; "restaurant"]);
    ("work", ["work"; "office"; "meeting"; "presentation"]);
    ("party", ["party"; "celebration"; "event"; "night out"]);
    ("casual", ["everyday"; "general"; "normal"; "regular"]) ].

Definition _extract_weather_from_text (text : string) : string :=
  first_pattern weather_patterns (lower text) "mild".

Definition _extract_vibe_from_text (text : string) : string :=
  first_pattern vibe_patterns (lower text) "casual".

Definition _extract_occasion_from_text (text : string) : string :=
  first_pattern occasion_patterns (lower text) "general".

Section Analysis.

(** What the sentiment pipeline returns is not this program's to decide. *)
Variable Sentiment : Type.

(** [classifier] is [None] when no pipeline was loaded; a loaded pipeline
    applied to a text gives its first result, or [None] when the call
    raises. *)
Record t := {
  available : bool;
  classifier : option (string -> option Sentiment)
}.

Record Analysis := {
  a_weather : string;
  a_vibe : string;
  a_occasion : string;
  a_sentiment : option Sentiment;
  a_original_request : string
}.

(** The dictionary of [analyze_outfit_request]: one with the key ["error"],
    or the analysis. *)
Inductive analysis_result :=
  | NotAvailable
  | AnalysisFailed
  | Analysed (a : Analysis).

Definition analyze_outfit_request (self : t) (request_text : string)
    : analysis_result :=
  if negb (available self) then NotAvailable
  else
    let weather := _extract_weather_from_text request_text in
    let vibe := _extract_vibe_from_text request_text in
    let occasion := _extract_occasion_from_text request_text in
    let analysed sentiment :=
      Analysed {| a_weather := weather; a_vibe := vibe; a_occasion := occasion;
                  a_sentiment := sentiment;
                  a_original_request := request_text |} in
    match classifier self with
    | Some pipeline =>
        match pipeline request_text with
        | Some sentiment => analysed (Some sentiment)
        | None => AnalysisFailed
        end
    | None => analysed None
    end.

End Analysis.

End HuggingFaceIntegration.

(** ** ClothingAI: the rule-based request parser *)

Module ClothingAI.

Import OutfitSuggestionEngine.

(** The weather detection of [_fallback_text_parsing]. *)
Definition fallback_weather (text_lower : string) : string :=
  let weather := "mild" in
  if any_in ["hot"; "warm"; "summer"; "sunny"; "beach"] text_lower then "hot"
  else if any_in ["cold"; "winter"; "chilly"; "freezing"; "snow"] text_lower then "cold"
  else if any_in ["rain"; "wet"; "rainy"; "drizzle"; "storm"] text_lower then "rainy"
  else if any_in ["cool"; "fall"; "autumn"] text_lower then "cool"
  else weather.

(** The vibe detection of [_fallback_text_parsing]. *)
Definition fallback_vibe (text_lower : string) : string :=
  let vibe := "casual" in
  if any_in ["business"; "meeting"; "presentation"; "office"; "formal"; "suit"] text_lower
  then (if any_in ["business"; "meeting"; "presentation"] text_lower
        then "business" else "professional")
  else if any_in ["professional"; "work"] text_lower then "professional"
  else if any_in ["trendy"; "stylish"; "fashionable"; "hip"; "cool"] text_lower then "trendy"
  else if any_in ["sporty"; "gym"; "workout"; "exercise"; "athletic"] text_lower then "sporty"
  else if any_in ["casual"; "relaxed"; "comfortable"; "everyday"] text_lower then "casual"
  else vibe.

(** [_fallback_text_parsing]: the engine is called with the two detected
    fields and the default occasion. *)
Definition _fallback_text_parsing (suggestion_engine : OutfitSuggestionEngine.t)
    (text : string) : Rnd Suggestion :=
  let text_lower := lower text in
  let weather := fallback_weather text_lower in
  let vibe := fallback_vibe text_lower in
  suggest_outfit suggestion_engine weather vibe "general".

Section Facade.

Variable Sentiment : Type.

(** The state of a [ClothingAI]: the engine and the language integration.
    The labeler has no state of its own, its keyword tables are fixed. *)
Record t := {
  suggestion_engine : OutfitSuggestionEngine.t;
  hf_integration : HuggingFaceIntegration.t Sentiment
}.

Definition label_clothing (self : t) (description : string)
    : outcome ClothingLabeler.Labels :=
  ClothingLabeler.label_clothing_from_text description.

Definition suggest_outfit_from_params (self : t) (weather vibe occasion : string)
    : Rnd Suggestion :=
  suggest_outfit (suggestion_engine self) weather vibe occasion.

(** The dictionary of [suggest_outfit_from_text]: a suggestion, with the
    key ["natural_language_analysis"] when the request was analysed
    ([None] is the absent key). *)
Record TextSuggestion := {
  ts_suggestion : Suggestion;
  ts_natural_language_analysis : option (HuggingFaceIntegration.Analysis Sentiment)
}.

Definition suggest_outfit_from_text (self : t) (request_text : string)
    : Rnd TextSuggestion :=
  let fallback :=
    do suggestion <- _fallback_text_parsing (suggestion_engine self) request_text;
    ret {| ts_suggestion := suggestion; ts_natural_language_analysis := None |} in
  if HuggingFaceIntegration.available Sentiment (hf_integration self) then
    match HuggingFaceIntegration.analyze_outfit_request Sentiment
            (hf_integration self) request_text with
    | HuggingFaceIntegration.Analysed _ analysis =>
        let weather := HuggingFaceIntegration.a_weather Sentiment analysis in
        let vibe := HuggingFaceIntegration.a_vibe Sentiment analysis in
        let occasion := HuggingFaceIntegration.a_occasion Sentiment analysis in
        do outfit_suggestion <-
          suggest_outfit (suggestion_engine self) weather vibe occasion;
        ret {| ts_suggestion := outfit_suggestion;
               ts_natural_language_analysis := Some analysis |}
    | _ => fallback
    end
  else fallback.

(** [self.suggestion_engine.wardrobe.append(item)] *)
Definition add_clothing_item (self : t) (item : ClothingItem) : t :=
  {| suggestion_engine :=
       {| wardrobe := wardrobe (suggestion_engine self) ++ [item];
          outfit_rules := outfit_rules (suggestion_engine self) |};
     hf_integration := hf_integration self |}.

(** [counts[key] = counts.get(key, 0) + 1] *)
Definition bump (counts : gmap string Z) (key : string) : gmap string Z :=
  <[key := default 0 (counts !! key) + 1]> counts.

(** The dictionary of [get_wardrobe_summary]. *)
Record WardrobeSummary := {
  sum_total_items : Z;
  sum_types_distribution : gmap string Z;
  sum_styles_distribution : gmap string Z;
  sum_items : list ItemDetails
}.

Definition get_wardrobe_summary (self : t) : WardrobeSummary :=
  let wardrobe := wardrobe (suggestion_engine self) in
  let counts :=
    fold_left
      (fun counts item =>
         (bump (fst counts) (ClothingType_value (type item)),
          bump (snd counts) (Style_value (style item))))
      wardrobe (∅, ∅) in
  {| sum_total_items := len wardrobe;
     sum_types_distribution := fst counts;
     sum_styles_distribution := snd counts;
     sum_items := map details_of wardrobe |}.

End Facade.

End ClothingAI.


(** ** Definitions used to state the properties *)

Module Spec.

Import ClothingLabeler.

(** The number of keywords of a table that occur in a description. *)
Definition hits (keywords : list string) (description : string) : Z :=
  count_if (fun keyword => str_in keyword description) keywords.

(** The formality score as the specification words it, from the number of
    formal hits [F] and of casual hits [C]. *)
Definition formality_score (F C : Z) : Z :=
  if F >? C then Z.min (7 + F) 10
  else if C >? F then Z.max (3 - C) 1
  else 5.

(** The request of the specification's parser example. *)
Definition meeting_request : string :=
  "What should I wear for a professional business meeting?".

(** [returns m P]: whatever the random source produces, [m] returns
    normally and its value satisfies [P]. *)
Definition returns {A} (m : Rnd A) (P : A -> Prop) : Prop :=
  forall tp : tape, exists a tp', m tp = (Return a, tp') /\ P a.

(** The categories of the outfit assembly. *)
Definition top_types : list ClothingType := [T_SHIRT; HOODIE; SWEATER].
Definition bottom_types : list ClothingType := [JEANS; SHORTS; PANTS].
Definition shoe_types : list ClothingType := [SNEAKERS; BOOTS; SANDALS].

(** At most one item, taken from the candidates of the given types. *)
Definition picked (items : list ClothingItem) (types : list ClothingType)
    (part : list ClothingItem) : Prop :=
  part = [] \/
  exists x, In x items /\ type_in (type x) types = true /\ part = [x].

(** Appending at most one candidate of the given types. *)
Definition extends (items : list ClothingItem) (types : list ClothingType)
    (outfit outfit' : list ClothingItem) : Prop :=
  exists part, picked items types part /\ outfit' = outfit ++ part.

(** The shapes an assembled outfit can have: a dress, or at most a top and
    at most a bottom; then at most one pair of shoes; then at most one
    jacket. *)
Definition body_shape (items body : list ClothingItem) : Prop :=
  (exists x, In x items /\ type x = DRESS /\ body = [x]) \/
  (exists tops bottoms,
     body = tops ++ bottoms /\
     picked items top_types tops /\ picked items bottom_types bottoms).

Definition outfit_shape (items outfit : list ClothingItem) : Prop :=
  exists body shoes outerwear,
    outfit = body ++ shoes ++ outerwear /\
    body_shape items body /\
    picked items shoe_types shoes /\
    picked items [JACKET] outerwear.

(** The number of entries of ["items_details"] whose type is one of the
    given ones. *)
Definition count_types (types : list ClothingType)
    (details : list OutfitSuggestionEngine.ItemDetails) : Z :=
  count_if (fun d => word_in (OutfitSuggestionEngine.d_type d)
                       (map ClothingType_value types)) details.

(** The candidates of each category, as [_create_outfit_combination]
    computes them. *)
Definition tops_of (items : list ClothingItem) : list ClothingItem :=
  List.filter (fun item => type_in (type item) [T_SHIRT; HOODIE; SWEATER]) items.
Definition bottoms_of (items : list ClothingItem) : list ClothingItem :=
  List.filter (fun item => type_in (type item) [JEANS; SHORTS; PANTS]) items.
Definition dresses_of (items : list ClothingItem) : list ClothingItem :=
  List.filter (fun item => ClothingType_eqb (type item) DRESS) items.
Definition shoes_of (items : list ClothingItem) : list ClothingItem :=
  List.filter (fun item => type_in (type item) [SNEAKERS; BOOTS; SANDALS]) items.
Definition outerwear_of (items : list ClothingItem) : list ClothingItem :=
  List.filter (fun item => ClothingType_eqb (type item) JACKET) items.

Definition has_formal (items : list ClothingItem) : bool :=
  len (List.filter OutfitSuggestionEngine.is_formal items) >? 0.

(** The condition under which a jacket is added without a coin flip. *)
Definition needs_outerwear (items : list ClothingItem) : bool :=
  existsb (fun item => type_in (type item) [JACKET] &&
             existsb (fun weather => weather_in weather (weather_suitability item))
               [COLD; RAINY])
    (outerwear_of items)
  || has_formal items && existsb OutfitSuggestionEngine.is_formal (outerwear_of items).

(** The candidates a random pick is made among: the formal ones when
    there are some. *)
Definition pool (cands : list ClothingItem) : list ClothingItem :=
  if nonempty (List.filter OutfitSuggestionEngine.is_formal cands)
  then List.filter OutfitSuggestionEngine.is_formal cands
  else cands.

Definition one_of (cands part : list ClothingItem) : Prop :=
  exists x, In x cands /\ part = [x].

(** One item of the pool when there is a candidate, nothing otherwise. *)
Definition pick_if_any (cands part : list ClothingItem) : Prop :=
  if nonempty cands then one_of (pool cands) part else part = [].

(** A step of the assembly: the outfit grows by a pick among the
    candidates. *)
Definition picks (cands outfit outfit' : list ClothingItem) : Prop :=
  exists part, pick_if_any cands part /\ outfit' = outfit ++ part.

(** The outfits [_create_outfit_combination] can return for a candidate
    set. *)
Definition assembled (items outfit : list ClothingItem) : Prop :=
  exists body shoes outerwear,
    outfit = body ++ shoes ++ outerwear /\
    ((nonempty (dresses_of items) = true /\ one_of (dresses_of items) body) \/
     ((nonempty (dresses_of items) = false \/ has_formal items = true) /\
      exists tops bottoms,
        body = tops ++ bottoms /\
        pick_if_any (tops_of items) tops /\
        pick_if_any (bottoms_of items) bottoms)) /\
    pick_if_any (shoes_of items) shoes /\
    (if nonempty (outerwear_of items)
     then one_of (pool (outerwear_of items)) outerwear \/
          (needs_outerwear items = false /\ outerwear = [])
     else outerwear = []).

(** The number of items of a wardrobe whose type, or style, has the given
    value. *)
Definition count_type_value (value : string) (wardrobe : list ClothingItem) : Z :=
  count_if (fun item => String.eqb (ClothingType_value (type item)) value) wardrobe.
Definition count_style_value (value : string) (wardrobe : list ClothingItem) : Z :=
  count_if (fun item => String.eqb (Style_value (style item)) value) wardrobe.

(** An entry of a distribution: absent when the count is zero. *)
Definition count_entry (n : Z) : option Z := if n =? 0 then None else Some n.

End Spec.

(** * Properties *)

Import Spec.

Import ClothingLabeler.
Import OutfitSuggestionEngine.

(** ** The labeler *)

Section Labeler.

Lemma truediv_nonzero (a b : Z) :
  b <> 0 -> truediv a b = Return (inject_Z a / inject_Z b)%Q.
Proof.
  intros Hb. unfold truediv. destruct (Z.eqb_spec b 0); [contradiction | reflexivity].
Qed.

Lemma calculate_confidence_returns (description : string) :
  exists q, _calculate_confidence description = Return q.
Proof.
  unfold _calculate_confidence. rewrite truediv_nonzero by lia. eauto.
Qed.

Lemma label_clothing_returns (description : string) :
  exists l, label_clothing_from_text description = Return l.
Proof.
  unfold label_clothing_from_text.
  destruct (calculate_confidence_returns (lower description)) as [q ->]. eauto.
Qed.

(** C7. The empty description is labelled with type "unknown", no style,
    weather suitability [mild], formality 5, warmth 5 and confidence 0;
    and for every description the divisor of the confidence is at least 1,
    so the division never raises. *)
Theorem label_empty_description :
  label_clothing_from_text EmptyString =
    Return {| l_type := "unknown"; l_styles := [];
              l_weather_suitability := ["mild"];
              l_formality_level := 5; l_warmth_rating := 5;
              l_confidence := 0%Q |}
  /\ (forall description,
        1 <= Z.max 1 (len (split description)) /\
        exists q, _calculate_confidence description = Return q).
Proof.
  split; [reflexivity |].
  intros description. split; [lia | apply calculate_confidence_returns].
Qed.

Example label_gray_hoodie :
  exists l,
    label_clothing_from_text "A comfortable gray hoodie perfect for cold weather"
      = Return l /\
    l_type l = "hoodie" /\ l_styles l = ["casual"] /\
    l_weather_suitability l = ["cold"] /\
    l_formality_level l = 2 /\ l_warmth_rating l = 5 /\
    (l_confidence l == 1 # 2)%Q.
Proof. eexists. split; [vm_compute; reflexivity |]. repeat split. Qed.

(** *** Type detection *)

Lemma detect_type_first (before after : list (ClothingType * list string))
    (t : ClothingType) (keywords : list string) (text : string) :
  Forall (fun e => any_in (snd e) text = false) before ->
  any_in keywords text = true ->
  detect_type (before ++ (t, keywords) :: after) text = Some t.
Proof.
  induction 1 as [| [t' kws'] before Hhd _ IH]; intros Hany; simpl.
  - now rewrite Hany.
  - simpl in Hhd. rewrite Hhd. now apply IH.
Qed.

(** C5, as amended.  A description in which a keyword of a type occurs and
    no keyword of a type declared earlier in the table occurs (both as
    substrings of the lower-cased text) is labelled with that type. *)
Theorem label_type_first_match (description : string)
    (before after : list (ClothingType * list string))
    (t : ClothingType) (keywords : list string) (keyword : string) :
  clothing_keywords = before ++ (t, keywords) :: after ->
  In keyword keywords ->
  str_in keyword (lower description) = true ->
  (forall t' keywords' keyword', In (t', keywords') before ->
     In keyword' keywords' -> str_in keyword' (lower description) = false) ->
  exists l, label_clothing_from_text description = Return l /\
            l_type l = ClothingType_value t.
Proof.
  intros Htable Hin Hocc Hbefore.
  unfold label_clothing_from_text.
  destruct (calculate_confidence_returns (lower description)) as [q ->].
  eexists; split; [reflexivity |]. cbn [l_type].
  rewrite Htable, (detect_type_first before after t keywords); [reflexivity | |].
  - apply List.Forall_forall. intros [t' keywords'] He. simpl.
    unfold any_in. apply not_true_iff_false. intros Hex.
    apply existsb_exists in Hex as [keyword' [Hk Hs]].
    rewrite (Hbefore t' keywords' keyword' He Hk) in Hs. discriminate.
  - unfold any_in. apply existsb_exists. eauto.
Qed.

Lemma label_type_first_match_witness :
  exists l, label_clothing_from_text "Steel toe boots" = Return l /\
            l_type l = "t-shirt".
Proof.
  apply (label_type_first_match "Steel toe boots"
           [(HOODIE, ["hoodie"; "hooded"; "pullover"])]
           (skipn 2 clothing_keywords) T_SHIRT
           ["t-shirt"; "tee"; "shirt"; "top"] "tee").
  - reflexivity.
  - simpl; auto.
  - reflexivity.
  - intros t' keywords' keyword' Hin Hk.
    simpl in Hin. destruct Hin as [He | []]; inversion He; subst;
      simpl in Hk; repeat (destruct Hk as [<- | Hk]; [reflexivity |]);
      destruct Hk.
Defined.

(** C5, as stated, fails: in "steel toe boots" the only word that is a
    type keyword is "boots", of the type boots, and the description is
    labelled t-shirt, a type declared earlier whose keyword "tee" occurs
    inside "steel". *)
Lemma label_type_exact_word_counterexample :
  ~ (forall (description : string) (t : ClothingType) (keywords : list string)
            (word : string),
       In (t, keywords) clothing_keywords ->
       In word keywords ->
       In word (split description) ->
       exists l, label_clothing_from_text description = Return l /\
                 l_type l = ClothingType_value t).
Proof.
  intros H.
  destruct (H "steel toe boots" BOOTS ["boots"; "ankle boots"; "hiking boots"] "boots")
    as [l [Hl Ht]].
  - simpl; auto 20.
  - simpl; auto.
  - vm_compute; auto.
  - vm_compute in Hl. inversion Hl; subst l. discriminate Ht.
Qed.

(** *** Formality *)

Lemma predict_formality_score (description : string) :
  _predict_formality description =
    formality_score (hits formal_keywords description)
                    (hits casual_keywords description).
Proof. reflexivity. Qed.

Lemma hits_nonneg (keywords : list string) (description : string) :
  0 <= hits keywords description.
Proof. unfold hits, count_if. lia. Qed.

Lemma formality_score_mono (F C : Z) :
  0 <= F -> 0 <= C -> formality_score F C <= formality_score (F + 1) C.
Proof.
  intros HF HC. unfold formality_score.
  destruct (Z.gtb_spec F C), (Z.gtb_spec C F), (Z.gtb_spec (F + 1) C),
    (Z.gtb_spec C (F + 1)); lia.
Qed.

Lemma count_if_ext_in {A} (p q : A -> bool) (xs : list A) :
  (forall x, In x xs -> p x = q x) -> count_if p xs = count_if q xs.
Proof.
  intros H. unfold count_if. f_equal. f_equal.
  induction xs as [| x xs IH]; [reflexivity |]. simpl.
  rewrite (H x) by (now left). rewrite IH; [reflexivity |].
  intros y Hy. apply H. now right.
Qed.

Lemma count_if_cons {A} (p : A -> bool) (x : A) (xs : list A) :
  count_if p (x :: xs) = (if p x then 1 else 0) + count_if p xs.
Proof.
  unfold count_if. simpl. destruct (p x); simpl List.length; lia.
Qed.

(** One more hit: [q] agrees with [p] on a duplicate-free list except at
    one member, where [p] fails and [q] holds. *)
Lemma count_if_one_more {A} (p q : A -> bool) (xs : list A) (k : A) :
  List.NoDup xs -> In k xs -> p k = false -> q k = true ->
  (forall x, In x xs -> x <> k -> p x = q x) ->
  count_if q xs = count_if p xs + 1.
Proof.
  induction 1 as [| x xs Hnotin Hnd IH]; intros Hin Hp Hq Hsame.
  - destruct Hin.
  - rewrite !count_if_cons. destruct Hin as [-> | Hin].
    + rewrite Hp, Hq.
      rewrite (count_if_ext_in p q xs); [lia |].
      intros y Hy. apply Hsame; [now right | intros ->; contradiction].
    + rewrite (Hsame x) by (try (now left); intros ->; contradiction).
      rewrite IH; [lia | assumption.. |].
      intros y Hy. apply Hsame. now right.
Qed.

Lemma formal_keywords_nodup : List.NoDup formal_keywords.
Proof. repeat constructor; simpl; intuition discriminate. Qed.

Lemma formal_not_casual (k : string) :
  In k formal_keywords -> ~ In k casual_keywords.
Proof.
  simpl. intros H Hc.
  repeat (destruct H as [<- | H];
          [repeat (destruct Hc as [Hc | Hc]; [discriminate Hc |]); destruct Hc |]).
  destruct H.
Qed.

(** C8. The formality level is the score of the specification,
    [min(7+F, 10)] when [F > C], [max(3-C, 1)] when [C > F] and [5]
    otherwise, and it does not decrease from a description to one that has
    one formal keyword more and otherwise the same formal and casual
    keywords. *)
Theorem label_formality_monotonic (d d' : string) (keyword : string) :
  In keyword formal_keywords ->
  str_in keyword (lower d) = false ->
  str_in keyword (lower d') = true ->
  (forall k, In k (formal_keywords ++ casual_keywords) -> k <> keyword ->
     str_in k (lower d) = str_in k (lower d')) ->
  exists l l',
    label_clothing_from_text d = Return l /\
    label_clothing_from_text d' = Return l' /\
    l_formality_level l =
      formality_score (hits formal_keywords (lower d)) (hits casual_keywords (lower d)) /\
    l_formality_level l' =
      formality_score (hits formal_keywords (lower d')) (hits casual_keywords (lower d')) /\
    hits formal_keywords (lower d') = hits formal_keywords (lower d) + 1 /\
    hits casual_keywords (lower d') = hits casual_keywords (lower d) /\
    l_formality_level l <= l_formality_level l'.
Proof.
  intros Hk Hd Hd' Hsame.
  assert (HF : hits formal_keywords (lower d') = hits formal_keywords (lower d) + 1).
  { unfold hits. apply (count_if_one_more _ _ formal_keywords keyword);
      auto using formal_keywords_nodup.
    intros x Hx Hne. apply Hsame; [apply in_or_app; now left | assumption]. }
  assert (HC : hits casual_keywords (lower d') = hits casual_keywords (lower d)).
  { unfold hits. apply count_if_ext_in. intros x Hx. symmetry.
    apply Hsame; [apply in_or_app; now right |].
    intros ->. exact (formal_not_casual keyword Hk Hx). }
  unfold label_clothing_from_text.
  destruct (calculate_confidence_returns (lower d)) as [q ->].
  destruct (calculate_confidence_returns (lower d')) as [q' ->].
  do 2 eexists. repeat split; try reflexivity; try assumption.
  simpl. rewrite !predict_formality_score, HF, HC.
  apply formality_score_mono; apply hits_nonneg.
Qed.

Lemma label_formality_monotonic_witness :
  exists l l',
    label_clothing_from_text "Casual shirt" = Return l /\
    label_clothing_from_text "Casual BUSINESS shirt" = Return l' /\
    l_formality_level l = formality_score 0 1 /\
    l_formality_level l' = formality_score 1 1 /\
    1 = 0 + 1 /\ 1 = 1 /\
    l_formality_level l <= l_formality_level l'.
Proof.
  apply (label_formality_monotonic "Casual shirt" "Casual BUSINESS shirt" "business").
  - simpl; auto.
  - reflexivity.
  - reflexivity.
  - intros k Hin Hne. simpl in Hin.
    repeat (destruct Hin as [<- | Hin]; [first [reflexivity | congruence] |]).
    destruct Hin.
Defined.

End Labeler.

(** ** The request parser *)

Section Parser.

(** C4. On the meeting request the rule-based parser detects the weather
    "mild" and the vibe "business", the occasion extractor gives "work",
    and an analysis of the request, when there is one, has these three
    fields. *)
Theorem parse_meeting_request :
  ClothingAI.fallback_weather (lower meeting_request) = "mild" /\
  ClothingAI.fallback_vibe (lower meeting_request) = "business" /\
  HuggingFaceIntegration._extract_occasion_from_text meeting_request = "work" /\
  (forall engine,
     ClothingAI._fallback_text_parsing engine meeting_request =
       suggest_outfit engine "mild" "business" "general") /\
  (forall (Sentiment : Type) (hf : HuggingFaceIntegration.t Sentiment) a,
     HuggingFaceIntegration.analyze_outfit_request Sentiment hf meeting_request =
       HuggingFaceIntegration.Analysed Sentiment a ->
     HuggingFaceIntegration.a_weather Sentiment a = "mild" /\
     HuggingFaceIntegration.a_vibe Sentiment a = "business" /\
     HuggingFaceIntegration.a_occasion Sentiment a = "work").
Proof.
  repeat split; try reflexivity.
  all: revert H; unfold HuggingFaceIntegration.analyze_outfit_request;
    destruct (HuggingFaceIntegration.available Sentiment hf); simpl negb; cbv iota;
    try discriminate;
    destruct (HuggingFaceIntegration.classifier Sentiment hf) as [pipeline |];
    [destruct (pipeline meeting_request); try discriminate |];
    intros H; inversion H; reflexivity.
Qed.

End Parser.

(** ** The vibe filter *)

Section VibeFilter.

Lemma nonempty_true {A} (xs : list A) : nonempty xs = true <-> xs <> [].
Proof. destruct xs; simpl; split; congruence. Qed.

Lemma nonempty_false {A} (xs : list A) : nonempty xs = false <-> xs = [].
Proof. destruct xs; simpl; split; congruence. Qed.

(** C1. The vibe filter returns the strictly filtered items when there are
    some.  When there are none and the vibe is "professional" or
    "business" it returns exactly the items of formality 6 or more
    (fallback A), if there are some.  Otherwise it returns its input
    (fallback B).  So the result is empty only when the input is. *)
Theorem filter_items_by_vibe_fallbacks (self : OutfitSuggestionEngine.t)
    (items : list ClothingItem) (vibe : string) :
  let rule := default no_rule (vibe_rules (outfit_rules self) !! vibe) in
  let strict := List.filter (vibe_keeps rule) items in
  let relaxed := List.filter (fun item => formality_level item >=? 6) items in
  let result := _filter_items_by_vibe self items vibe in
  (items <> [] -> result <> []) /\
  (strict <> [] -> result = strict) /\
  (strict = [] -> vibe = "professional" \/ vibe = "business" ->
     relaxed <> [] -> result = relaxed) /\
  (strict = [] -> vibe = "professional" \/ vibe = "business" ->
     relaxed = [] -> result = items) /\
  (strict = [] -> vibe <> "professional" -> vibe <> "business" ->
     result = items).
Proof.
  intros rule strict relaxed result.
  assert (Hdef : result =
    let filtered_items :=
      if negb (nonempty strict) && word_in vibe ["professional"; "business"]
      then strict ++ relaxed else strict in
    if nonempty filtered_items then filtered_items else items) by reflexivity.
  clearbody result strict relaxed. subst result. cbv zeta.
  assert (Hword : word_in vibe ["professional"; "business"] = true <->
                  vibe = "professional" \/ vibe = "business").
  { unfold word_in, existsb.
    rewrite orb_false_r, orb_true_iff, !String.eqb_eq. tauto. }
  repeat split.
  - intros Hitems.
    destruct (nonempty _) eqn:Hne.
    + now apply nonempty_true.
    + assumption.
  - intros Hs. apply nonempty_true in Hs. rewrite Hs. simpl. now rewrite Hs.
  - intros -> Hv Hr. apply Hword in Hv. rewrite Hv. simpl.
    apply nonempty_true in Hr. now rewrite Hr.
  - intros -> Hv ->. apply Hword in Hv. rewrite Hv. reflexivity.
  - intros -> Hp Hb.
    destruct (word_in vibe _); [| reflexivity].
    destruct (proj1 Hword eq_refl); contradiction.
Qed.

(** The two fallbacks on the sample wardrobe: in hot weather the only
    item of formality 6 or more is the dress; in snow nothing is, and the
    boots that suit the weather are kept. *)
Example filter_business_hot :
  map name (_filter_items_by_vibe init (_filter_items_by_weather init HOT) "business")
    = ["Summer Dress"].
Proof. vm_compute. reflexivity. Qed.

Example filter_business_snowy :
  map name (_filter_items_by_vibe init (_filter_items_by_weather init SNOWY) "business")
    = ["Winter Boots"].
Proof. vm_compute. reflexivity. Qed.

Lemma filter_items_by_vibe_incl (self : OutfitSuggestionEngine.t)
    (items : list ClothingItem) (vibe : string) :
  incl (_filter_items_by_vibe self items vibe) items.
Proof.
  unfold _filter_items_by_vibe. cbv zeta.
  set (strict := List.filter _ items).
  set (relaxed := List.filter _ items).
  assert (Hs : incl strict items) by apply incl_filter.
  assert (Hr : incl relaxed items) by apply incl_filter.
  destruct (negb (nonempty strict) && _);
    match goal with |- context [if nonempty ?l then _ else _] =>
      destruct (nonempty l) end;
    auto using incl_refl, incl_app.
Qed.

End VibeFilter.

(** ** Random choices *)

Section Random.

Context {A B : Type}.

Lemma returns_ret (a : A) (P : A -> Prop) : P a -> returns (ret a) P.
Proof. intros Ha tp. exists a, tp. now split. Qed.

Lemma returns_bind (m : Rnd A) (f : A -> Rnd B) (P : A -> Prop) (Q : B -> Prop) :
  returns m P -> (forall a, P a -> returns (f a) Q) -> returns (bind m f) Q.
Proof.
  intros Hm Hf tp. destruct (Hm tp) as [a [tp1 [Em Ha]]].
  destruct (Hf a Ha tp1) as [b [tp2 [Ef Hb]]].
  exists b, tp2. unfold bind. rewrite Em. now split.
Qed.

Lemma returns_impl (m : Rnd A) (P Q : A -> Prop) :
  returns m P -> (forall a, P a -> Q a) -> returns m Q.
Proof.
  intros Hm HPQ tp. destruct (Hm tp) as [a [tp' [Em Ha]]].
  exists a, tp'. auto.
Qed.

Lemma returns_lift (a : A) (o : outcome A) (P : A -> Prop) :
  o = Return a -> P a -> returns (lift o) P.
Proof. intros -> Ha tp. exists a, tp. now split. Qed.

Lemma returns_choice (seq : list A) :
  nonempty seq = true -> returns (random_choice seq) (fun x => In x seq).
Proof.
  destruct seq as [| x seq]; [discriminate |]. intros _ tp.
  unfold random_choice, bind, draw, ret.
  destruct tp as [| n tp]; eexists; eexists; (split; [reflexivity |]);
    apply nth_In, Nat.mod_upper_bound; discriminate.
Qed.

End Random.

Lemma returns_append {A} (cands outfit : list A) :
  nonempty cands = true ->
  returns (do x <- random_choice cands; ret (outfit ++ [x]))
          (fun o => exists x, In x cands /\ o = outfit ++ [x]).
Proof.
  intros Hne. eapply returns_bind; [now apply returns_choice |].
  intros x Hx. apply returns_ret. exists x. split; [exact Hx | reflexivity].
Qed.

(** ** Outfit assembly *)

Section Assembly.

Variable items : list ClothingItem.

Lemma in_filter_formal (p : ClothingItem -> bool) (x : ClothingItem) :
  In x (List.filter is_formal (List.filter p items)) ->
  In x (List.filter p items).
Proof. intros H. now apply List.filter_In in H. Qed.

Lemma picked_from (types : list ClothingType) (x : ClothingItem) :
  In x (List.filter (fun item => type_in (type item) types) items) ->
  picked items types [x].
Proof.
  intros H. apply List.filter_In in H as [Hin Ht]. right. eauto.
Qed.

Lemma picked_jacket (x : ClothingItem) :
  In x (List.filter (fun item => ClothingType_eqb (type item) JACKET) items) ->
  picked items [JACKET] [x].
Proof.
  intros H. apply List.filter_In in H as [Hin Ht]. right. exists x.
  repeat split; [assumption |]. unfold type_in, existsb. now rewrite Ht.
Qed.

Lemma extends_none types outfit : extends items types outfit outfit.
Proof. exists []. split; [now left | now rewrite app_nil_r]. Qed.

Lemma returns_extends (types : list ClothingType)
    (cands outfit : list ClothingItem) :
  (forall x, In x cands -> picked items types [x]) ->
  nonempty cands = true ->
  returns (do x <- random_choice cands; ret (outfit ++ [x]))
          (extends items types outfit).
Proof.
  intros Hc Hne. eapply returns_impl; [now apply returns_append |].
  intros o [x [Hx ->]]. exists [x]. auto.
Qed.

(** A step that appends one random candidate, or nothing. *)
Ltac step_extends :=
  repeat match goal with
  | |- returns (if ?b then _ else _) _ => destruct b eqn:?
  | |- returns (ret _) (extends _ _ _) => apply returns_ret, extends_none
  | |- returns (bind (random_choice _) _) (extends _ _ _) =>
      apply returns_extends;
      [ let x := fresh "x" in let Hx := fresh "Hx" in
        intros x Hx; try apply in_filter_formal in Hx;
        first [ now apply picked_from | now apply picked_jacket ]
      | assumption ]
  end.

Lemma create_outfit_shape :
  returns (_create_outfit_combination items) (outfit_shape items).
Proof.
  unfold _create_outfit_combination. cbv zeta.
  generalize (len (List.filter is_formal items) >? 0). intros has_formal_items.
  set (dresses := List.filter (fun item => ClothingType_eqb (type item) DRESS) items).
  apply returns_bind with (P := fun b : bool => b = true -> nonempty dresses = true).
  { destruct (nonempty dresses) eqn:Hd.
    - destruct (negb has_formal_items); [now apply returns_ret |].
      eapply returns_impl; [now apply returns_choice | auto].
    - apply returns_ret. discriminate. }
  intros choose_dress Hdress.
  apply returns_bind with (P := body_shape items).
  { destruct choose_dress.
    - eapply returns_impl; [apply returns_append; auto |].
      intros o [x [Hx ->]]. apply List.filter_In in Hx as [Hin Ht].
      left. exists x. repeat split; [assumption |].
      destruct (type x); try discriminate Ht; reflexivity.
    - assert (Hbody : forall m1 m2,
                returns m1 (extends items top_types []) ->
                (forall o, returns (m2 o) (extends items bottom_types o)) ->
                returns (do outfit <- m1; m2 outfit) (body_shape items)).
      { intros m1 m2 H1 H2. eapply returns_bind; [exact H1 |].
        intros o1 [tops [Htops ->]]. eapply returns_impl; [apply H2 |].
        intros o2 [bottoms [Hbottoms ->]]. right. exists tops, bottoms. auto. }
      destruct has_formal_items;
        apply (Hbody _ (fun outfit => _)); intros; step_extends. }
  intros body Hbody.
  apply returns_bind with (P := extends items shoe_types body);
    [step_extends |].
  intros o3 [shoes [Hshoes ->]].
  apply returns_bind with (P := extends items [JACKET] (body ++ shoes)).
  { match goal with
    | |- returns (if ?b then _ else _) _ => destruct b eqn:?
    end; [| step_extends].
    apply returns_bind with (P := fun _ : bool => True).
    - repeat match goal with
             | |- returns (if ?b then _ else _) _ => destruct b
             end; try (now apply returns_ret).
      eapply returns_impl; [now apply returns_choice | auto].
    - intros add _. step_extends. }
  intros o4 [outerwear [Houter ->]]. apply returns_ret.
  exists body, shoes, outerwear. rewrite app_assoc. auto.
Qed.

End Assembly.

Section Shape.

Lemma picked_incl items types part : picked items types part -> incl part items.
Proof.
  intros [-> | [x [Hin [_ ->]]]]; intros y Hy; [destruct Hy |].
  destruct Hy as [<- | []]. assumption.
Qed.

Lemma outfit_shape_incl items outfit : outfit_shape items outfit -> incl outfit items.
Proof.
  intros [body [shoes [outerwear [-> [Hbody [Hshoes Houter]]]]]].
  repeat apply incl_app; eauto using picked_incl.
  destruct Hbody as [[x [Hin [_ ->]]] | [tops [bottoms [-> [Ht Hb]]]]].
  - intros y [<- | []]. assumption.
  - apply incl_app; eauto using picked_incl.
Qed.

Lemma value_eqb (a b : ClothingType) :
  String.eqb (ClothingType_value a) (ClothingType_value b) = ClothingType_eqb a b.
Proof. destruct a, b; reflexivity. Qed.

Lemma word_in_values (t : ClothingType) (types : list ClothingType) :
  word_in (ClothingType_value t) (map ClothingType_value types) = type_in t types.
Proof.
  unfold word_in, type_in. induction types as [| t' types IH]; [reflexivity |].
  cbn [map existsb]. now rewrite value_eqb, IH.
Qed.

Lemma count_types_nil types : count_types types [] = 0.
Proof. reflexivity. Qed.

Lemma count_types_cons types (x : ClothingItem) (outfit : list ClothingItem) :
  count_types types (map details_of (x :: outfit)) =
    (if type_in (type x) types then 1 else 0) +
    count_types types (map details_of outfit).
Proof.
  unfold count_types. cbn [map]. rewrite count_if_cons.
  unfold details_of at 1. cbn [d_type]. now rewrite word_in_values.
Qed.

(** The limits of an outfit, on the types of its entries. *)
Lemma outfit_shape_limits items outfit :
  outfit_shape items outfit ->
  let details := map details_of outfit in
  (count_types [DRESS] details = 0 \/ count_types top_types details = 0) /\
  count_types [DRESS] details + count_types top_types details <= 1 /\
  count_types bottom_types details <= 1 /\
  (1 <= count_types [DRESS] details -> count_types bottom_types details = 0) /\
  count_types shoe_types details <= 1 /\
  count_types [JACKET] details <= 1.
Proof.
  intros [body [shoes [outerwear [-> [Hbody [Hshoes Houter]]]]]]. cbv zeta.
  destruct Hbody as [[d [_ [Hd ->]]] | [tops [bottoms [-> [Ht Hb]]]]];
    [| destruct Ht as [-> | [t [_ [Ht ->]]]];
       destruct Hb as [-> | [b [_ [Hb ->]]]] ];
    destruct Hshoes as [-> | [s [_ [Hs ->]]]];
    destruct Houter as [-> | [o [_ [Ho ->]]]];
    cbn [app];
    rewrite ?count_types_cons; cbn [map]; rewrite ?count_types_nil;
    repeat match goal with
           | H : type ?x = DRESS |- _ => rewrite H; clear H
           | H : type_in (type ?x) _ = true |- _ =>
               destruct (type x); try discriminate H; clear H
           end;
    cbn; lia.
Qed.

End Shape.

(** ** The suggestion engine *)

Section Engine.

Variable self : OutfitSuggestionEngine.t.

Lemma WeatherType_of_value_raises (value : string) (e : exn) :
  WeatherType_of_value value = Raise e -> e = ValueError.
Proof.
  unfold WeatherType_of_value. destruct (find _ _); congruence.
Qed.

Lemma weather_enum_of_returns (weather : string) :
  exists w, weather_enum_of weather = Return w.
Proof.
  unfold weather_enum_of.
  destruct (WeatherType_of_value (lower weather)) as [w | e] eqn:E; [eauto |].
  apply WeatherType_of_value_raises in E as ->. eauto.
Qed.



Lemma calculate_outfit_confidence_returns outfit w vibe :
  exists q, _calculate_outfit_confidence outfit w vibe = Return q /\
    (outfit = [] -> q = 0%Q) /\
    (outfit <> [] ->
       q = (inject_Z (count_if (fun item => weather_in w (weather_suitability item)) outfit)
            / inject_Z (len outfit))%Q).
Proof.
  unfold _calculate_outfit_confidence. destruct outfit as [| x outfit].
  - exists 0%Q. repeat split; congruence.
  - cbn [nonempty negb]. rewrite truediv_nonzero by (unfold len; simpl; lia).
    eexists. repeat split; congruence.
Qed.

(** A run of [suggest_outfit], step by step. *)
Lemma suggest_outfit_run (weather vibe occasion : string) (tp : tape) :
  exists w outfit q tp',
    weather_enum_of weather = Return w /\
    _create_outfit_combination
      (_filter_items_by_vibe self (_filter_items_by_weather self w) (lower vibe)) tp
      = (Return outfit, tp') /\
    outfit_shape
      (_filter_items_by_vibe self (_filter_items_by_weather self w) (lower vibe))
      outfit /\
    _calculate_outfit_confidence outfit w vibe = Return q /\
    suggest_outfit self weather vibe occasion tp =
      (Return {| s_outfit := map name outfit;
                 s_items_details := map details_of outfit;
                 s_reasoning := _generate_outfit_reasoning outfit weather vibe;
                 s_weather := weather;
                 s_vibe := vibe;
                 s_confidence := q |}, tp').
Proof.
  destruct (weather_enum_of_returns weather) as [w Hw].
  destruct (create_outfit_shape
              (_filter_items_by_vibe self (_filter_items_by_weather self w) (lower vibe))
              tp) as [outfit [tp' [Hrun Hshape]]].
  destruct (calculate_outfit_confidence_returns outfit w vibe) as [q [Hq _]].
  exists w, outfit, q, tp'. repeat split; try assumption.
  unfold suggest_outfit, bind, lift, ret. now rewrite Hw, Hrun, Hq.
Qed.

(** Every chosen item passed the weather filter. *)
Lemma chosen_items_suit (w : WeatherType) (vibe : string)
    (outfit : list ClothingItem) :
  outfit_shape
    (_filter_items_by_vibe self (_filter_items_by_weather self w) vibe) outfit ->
  forall item, In item outfit ->
    weather_in w (weather_suitability item) = true.
Proof.
  intros Hshape item Hin.
  apply outfit_shape_incl in Hshape. apply Hshape in Hin.
  apply filter_items_by_vibe_incl in Hin.
  unfold _filter_items_by_weather in Hin.
  now apply List.filter_In in Hin.
Qed.

Lemma count_if_all {A} (p : A -> bool) (xs : list A) :
  (forall x, In x xs -> p x = true) -> count_if p xs = len xs.
Proof.
  intros H. unfold count_if, len. f_equal. f_equal.
  induction xs as [| x xs IH]; [reflexivity |]. simpl.
  rewrite (H x) by (now left). f_equal. apply IH. intros y Hy. apply H. now right.
Qed.

Lemma count_if_bounds {A} (p : A -> bool) (xs : list A) :
  0 <= count_if p xs <= len xs.
Proof.
  unfold count_if, len. pose proof (List.filter_length_le p xs). lia.
Qed.

Lemma len_pos {A} (xs : list A) : xs <> [] -> 0 < len xs.
Proof. destruct xs; [congruence |]. unfold len. simpl. lia. Qed.

End Engine.

(** ** Quotients of counts *)

Section Quotients.

Lemma quotient_bounds (k n : Z) :
  0 <= k <= n -> 0 < n ->
  (0 <= inject_Z k / inject_Z n <= 1)%Q.
Proof.
  intros Hk Hn. destruct n as [| p | p]; try lia.
  unfold Qdiv, Qinv, Qmult, Qle, inject_Z. cbn. lia.
Qed.

Lemma quotient_zero (k n : Z) :
  0 < n -> (inject_Z k / inject_Z n == 0)%Q <-> k = 0.
Proof.
  intros Hn. destruct n as [| p | p]; try lia.
  unfold Qdiv, Qinv, Qmult, Qeq, inject_Z. cbn. lia.
Qed.

Lemma quotient_one (n : Z) : 0 < n -> (inject_Z n / inject_Z n == 1)%Q.
Proof.
  intros Hn. destruct n as [| p | p]; try lia.
  unfold Qdiv, Qinv, Qmult, Qeq, inject_Z. cbn. lia.
Qed.

End Quotients.

(** ** The claims on [suggest_outfit] *)

Section Suggestions.

Variable self : OutfitSuggestionEngine.t.

(** C2. Whatever the inputs and the random choices, the entries of the
    suggested outfit never include both a dress and a top; there is at
    most one top or dress, at most one bottom and none beside a dress, at
    most one pair of shoes and at most one jacket. *)
Theorem suggest_outfit_composition (weather vibe occasion : string) (tp : tape) :
  exists s tp',
    suggest_outfit self weather vibe occasion tp = (Return s, tp') /\
    (count_types [DRESS] (s_items_details s) = 0 \/
     count_types top_types (s_items_details s) = 0) /\
    count_types [DRESS] (s_items_details s)
      + count_types top_types (s_items_details s) <= 1 /\
    count_types bottom_types (s_items_details s) <= 1 /\
    (1 <= count_types [DRESS] (s_items_details s) ->
       count_types bottom_types (s_items_details s) = 0) /\
    count_types shoe_types (s_items_details s) <= 1 /\
    count_types [JACKET] (s_items_details s) <= 1.
Proof.
  destruct (suggest_outfit_run self weather vibe occasion tp)
    as [w [outfit [q [tp' [_ [_ [Hshape [_ Hrun]]]]]]]].
  eexists; eexists; split; [exact Hrun |]. cbn [s_items_details].
  exact (outfit_shape_limits _ _ Hshape).
Qed.

(** C3. The confidence of a suggestion is 0 for an empty outfit and
    otherwise the number of chosen items that suit the weather band over
    the number of chosen items; it lies between 0 and 1, and it is 0
    exactly when the outfit is empty.  The chosen items are the ones the
    assembly returns, on the same tape, for the candidates the two
    filters leave. *)
Theorem suggest_outfit_confidence_fraction (weather vibe occasion : string) (tp : tape) :
  exists w outfit s tp',
    weather_enum_of weather = Return w /\
    _create_outfit_combination
      (_filter_items_by_vibe self (_filter_items_by_weather self w) (lower vibe)) tp
      = (Return outfit, tp') /\
    suggest_outfit self weather vibe occasion tp = (Return s, tp') /\
    s_outfit s = map name outfit /\
    s_items_details s = map details_of outfit /\
    _calculate_outfit_confidence outfit w vibe = Return (s_confidence s) /\
    (outfit = [] -> s_confidence s = 0%Q) /\
    (outfit <> [] ->
       s_confidence s =
         (inject_Z (count_if (fun item => weather_in w (weather_suitability item)) outfit)
          / inject_Z (len outfit))%Q) /\
    (0 <= s_confidence s <= 1)%Q /\
    ((s_confidence s == 0)%Q <-> s_outfit s = []).
Proof.
  destruct (suggest_outfit_run self weather vibe occasion tp)
    as [w [outfit [q [tp' [Hw [Hc [Hshape [Hq Hrun]]]]]]]].
  destruct (calculate_outfit_confidence_returns outfit w vibe)
    as [q' [Hq' [Hempty Hsome]]].
  assert (q' = q) by congruence. subst q'.
  exists w, outfit. eexists; eexists.
  split; [exact Hw |]. split; [exact Hc |]. split; [exact Hrun |].
  cbn [s_outfit s_items_details s_confidence].
  split; [reflexivity |]. split; [reflexivity |]. split; [exact Hq |].
  split; [exact Hempty |]. split; [exact Hsome |].
  destruct outfit as [| x outfit].
  - rewrite Hempty by reflexivity. repeat split; try reflexivity; discriminate.
  - assert (Hne : x :: outfit <> []) by discriminate.
    rewrite (Hsome Hne).
    pose proof (len_pos (x :: outfit) Hne) as Hlen.
    split.
    + apply quotient_bounds; [apply count_if_bounds | assumption].
    + rewrite (count_if_all _ (x :: outfit))
        by (apply (chosen_items_suit self w (lower vibe)); assumption).
      rewrite quotient_zero by assumption. split; [lia | discriminate].
Qed.

(** C10. Every chosen item passed the weather filter, so the confidence
    of a suggestion with a non-empty outfit is 1. *)
Theorem nonempty_outfit_confidence_one (weather vibe occasion : string) (tp : tape) :
  exists w outfit s tp',
    weather_enum_of weather = Return w /\
    suggest_outfit self weather vibe occasion tp = (Return s, tp') /\
    s_outfit s = map name outfit /\
    incl outfit (_filter_items_by_weather self w) /\
    (forall item, In item outfit ->
       weather_in w (weather_suitability item) = true) /\
    (s_outfit s <> [] -> (s_confidence s == 1)%Q).
Proof.
  destruct (suggest_outfit_run self weather vibe occasion tp)
    as [w [outfit [q [tp' [Hw [_ [Hshape [Hq Hrun]]]]]]]].
  destruct (calculate_outfit_confidence_returns outfit w vibe)
    as [q' [Hq' [_ Hsome]]].
  assert (q' = q) by congruence. subst q'.
  pose proof (chosen_items_suit self w (lower vibe) outfit Hshape) as Hsuit.
  exists w, outfit. eexists; eexists.
  split; [exact Hw |]. split; [exact Hrun |].
  cbn [s_outfit s_confidence].
  split; [reflexivity |]. split.
  { intros item Hin. apply outfit_shape_incl in Hshape. apply Hshape in Hin.
    now apply filter_items_by_vibe_incl in Hin. }
  split; [exact Hsuit |].
  intros Hne. assert (Hout : outfit <> []) by (intros ->; now apply Hne).
  rewrite (Hsome Hout), (count_if_all _ outfit Hsuit).
  apply quotient_one, len_pos, Hout.
Qed.


End Suggestions.


Example suggest_mild_business :
  exists s,
    suggest_outfit init "Mild" "Business" "general" [3; 1; 4; 1; 5]%nat
      = (Return s, [5]%nat) /\
    s_outfit s = ["White Dress Shirt"; "Black Dress Pants";
                  "Black Oxford Shoes"; "Navy Blazer"] /\
    (s_confidence s == 1)%Q.
Proof. eexists. split; [vm_compute; reflexivity |]. split; reflexivity. Qed.

(** C9. The labeler returns normally on every description, and the engine
    on every weather, vibe and occasion and every tape of random numbers;
    a random choice is only made among candidates that exist and the
    quotients have divisors that are not zero. *)
Theorem core_returns_normally :
  (forall description, exists l, label_clothing_from_text description = Return l) /\
  (forall self weather vibe occasion tp,
     exists s tp', suggest_outfit self weather vibe occasion tp = (Return s, tp')) /\
  (forall items tp,
     exists outfit tp', _create_outfit_combination items tp = (Return outfit, tp')) /\
  (forall outfit w vibe,
     exists q, _calculate_outfit_confidence outfit w vibe = Return q) /\
  (forall description, exists q, _calculate_confidence description = Return q).
Proof.
  split; [exact label_clothing_returns |]. split.
  { intros self weather vibe occasion tp.
    destruct (suggest_outfit_run self weather vibe occasion tp)
      as [w [outfit [q [tp' [_ [_ [_ [_ Hrun]]]]]]]]. eauto. }
  split.
  { intros items tp. destruct (create_outfit_shape items tp) as [o [tp' [H _]]]. eauto. }
  split.
  { intros outfit w vibe.
    destruct (calculate_outfit_confidence_returns outfit w vibe) as [q [Hq _]]. eauto. }
  exact calculate_confidence_returns.
Qed.

(** * Further properties of the labeler *)

Section LabelerMore.

Lemma lower_char_idempotent (c : ascii) : lower_char (lower_char c) = lower_char c.
Proof.
  destruct c as [b0 b1 b2 b3 b4 b5 b6 b7].
  destruct b0, b1, b2, b3, b4, b5, b6, b7; reflexivity.
Qed.

Lemma lower_idempotent (s : string) : lower (lower s) = lower s.
Proof.
  induction s as [| c s IH]; [reflexivity |].
  cbn [lower]. now rewrite lower_char_idempotent, IH.
Qed.

(** X1. The labels do not depend on the case of the description. *)
Theorem label_case_insensitive (description : string) :
  label_clothing_from_text (lower description) = label_clothing_from_text description.
Proof.
  unfold label_clothing_from_text. now rewrite lower_idempotent.
Qed.

Lemma hits_bounds (keywords : list string) (description : string) :
  0 <= hits keywords description <= len keywords.
Proof. apply count_if_bounds. Qed.

(** X2. The formality level is 8, 9 or 10 when formal keywords prevail, 1 or 2
    when casual keywords prevail and 5 otherwise, so it is never 3, 4, 6
    or 7; the warmth rating lies between 1 and 10. *)
Theorem label_scores_range (description : string) :
  exists l,
    label_clothing_from_text description = Return l /\
    In (l_formality_level l) [1; 2; 5; 8; 9; 10] /\
    (l_formality_level l >= 8 <->
       hits formal_keywords (lower description) > hits casual_keywords (lower description)) /\
    (l_formality_level l <= 2 <->
       hits casual_keywords (lower description) > hits formal_keywords (lower description)) /\
    1 <= l_warmth_rating l <= 10.
Proof.
  unfold label_clothing_from_text.
  destruct (calculate_confidence_returns (lower description)) as [q ->].
  eexists. split; [reflexivity |]. cbn [l_formality_level l_warmth_rating].
  rewrite predict_formality_score.
  pose proof (hits_bounds formal_keywords (lower description)) as HF.
  pose proof (hits_bounds casual_keywords (lower description)) as HC.
  change (len formal_keywords) with 5 in HF.
  change (len casual_keywords) with 5 in HC.
  unfold formality_score, _predict_warmth.
  destruct (Z.gtb_spec (hits formal_keywords (lower description))
                       (hits casual_keywords (lower description)));
    destruct (Z.gtb_spec (hits casual_keywords (lower description))
                         (hits formal_keywords (lower description)));
    cbn [In]; repeat split; try lia.
Qed.

Lemma confidence_value (description : string) :
  _calculate_confidence description =
    Return (Qmin 1 (inject_Z (count_if (fun word => word_in word all_keywords)
                                       (split description))
                    / inject_Z (Z.max 1 (len (split description))) * 2)).
Proof.
  unfold _calculate_confidence. now rewrite truediv_nonzero by lia.
Qed.

Lemma doubled_quotient_le_one (m n : Z) :
  0 < n -> (1 <= inject_Z m / inject_Z n * 2)%Q <-> n <= 2 * m.
Proof.
  intros Hn. destruct n as [| p | p]; try lia.
  unfold Qdiv, Qinv, Qmult, Qle, inject_Z. cbn. lia.
Qed.

Lemma doubled_quotient_zero (m n : Z) :
  0 < n -> (inject_Z m / inject_Z n * 2 == 0)%Q <-> m = 0.
Proof.
  intros Hn. destruct n as [| p | p]; try lia.
  unfold Qdiv, Qinv, Qmult, Qeq, inject_Z. cbn. lia.
Qed.

Lemma doubled_quotient_nonneg (m n : Z) :
  0 <= m -> 0 < n -> (0 <= inject_Z m / inject_Z n * 2)%Q.
Proof.
  intros Hm Hn. destruct n as [| p | p]; try lia.
  unfold Qdiv, Qinv, Qmult, Qle, inject_Z. cbn. lia.
Qed.

(** X3. The confidence of a labelling lies between 0 and 1; it is 0 exactly
    when no word of the description is a type or style keyword, and 1
    exactly when at least half of the words are. *)
Theorem label_confidence_range (description : string) :
  let words := split (lower description) in
  let matched := count_if (fun word => word_in word all_keywords) words in
  exists l,
    label_clothing_from_text description = Return l /\
    (0 <= l_confidence l <= 1)%Q /\
    ((l_confidence l == 0)%Q <-> matched = 0) /\
    ((l_confidence l == 1)%Q <-> 1 <= matched /\ len words <= 2 * matched).
Proof.
  intros words matched. unfold label_clothing_from_text.
  rewrite confidence_value. fold words. fold matched.
  eexists. split; [reflexivity |]. cbn [l_confidence].
  assert (Hm : 0 <= matched <= len words) by apply count_if_bounds.
  assert (Hn : 0 < Z.max 1 (len words)) by lia.
  pose proof (doubled_quotient_le_one matched _ Hn) as Hone.
  pose proof (doubled_quotient_zero matched _ Hn) as Hzero.
  pose proof (doubled_quotient_nonneg matched _ (proj1 Hm) Hn) as Hpos.
  set (q := (inject_Z matched / inject_Z (Z.max 1 (len words)) * 2)%Q) in *.
  destruct (Q.min_spec 1 q) as [[Hlt ->] | [Hle ->]].
  - assert (H1 : (1 <= q)%Q) by now apply Qlt_le_weak.
    apply Hone in H1.
    split; [split; discriminate |].
    split; [split; [intros H0; discriminate H0 | intros H0; lia] |].
    split; [intros _; lia | intros _; reflexivity].
  - split; [split; assumption |].
    split; [exact Hzero |].
    split.
    + intros Hq. assert (H1 : (1 <= q)%Q) by (rewrite Hq; apply Qle_refl).
      apply Hone in H1. lia.
    + intros [H1 H2]. apply Qle_antisym; [assumption |]. apply Hone. lia.
Qed.

End LabelerMore.

Section Detection.

Lemma NoDup_map_filter {A B} (f : A -> B) (p : A -> bool) (xs : list A) :
  List.NoDup (map f xs) -> List.NoDup (map f (List.filter p xs)).
Proof.
  induction xs as [| x xs IH]; intros Hnd; [constructor |].
  cbn [map] in Hnd. inversion Hnd as [| y ys Hnotin Hnd']; subst.
  cbn [List.filter]. destruct (p x); [| now apply IH].
  cbn [map]. constructor; [| now apply IH].
  intros Hin. apply Hnotin. apply in_map_iff in Hin as [z [Hz Hin]].
  apply List.filter_In in Hin as [Hin _]. apply in_map_iff. eauto.
Qed.

Lemma NoDup_map_injective {A B} (f : A -> B) (xs : list A) :
  (forall a b, f a = f b -> a = b) -> List.NoDup xs -> List.NoDup (map f xs).
Proof.
  intros Hinj. induction 1 as [| x xs Hnotin _ IH]; cbn [map]; constructor;
    [| assumption].
  intros Hin. apply in_map_iff in Hin as [y [Hy Hin]].
  apply Hinj in Hy. now subst y.
Qed.

Lemma NoDup_map_fst {A B} (xs : list (A * B)) :
  List.NoDup (map fst xs) -> List.NoDup xs.
Proof.
  induction xs as [| x xs IH]; intros Hnd; [constructor |].
  cbn [map] in Hnd. inversion Hnd as [| y ys Hnotin Hnd']; subst.
  constructor; [| now apply IH].
  intros Hin. apply Hnotin. now apply in_map.
Qed.

Lemma Style_value_inj (a b : Style) : Style_value a = Style_value b -> a = b.
Proof. destruct a, b; intros H; first [reflexivity | discriminate H]. Qed.

Lemma WeatherType_value_inj (a b : WeatherType) :
  WeatherType_value a = WeatherType_value b -> a = b.
Proof. destruct a, b; intros H; first [reflexivity | discriminate H]. Qed.

Lemma style_keywords_nodup : List.NoDup (map fst style_keywords).
Proof. repeat constructor; cbn; intuition discriminate. Qed.

Lemma weather_keywords_nodup : List.NoDup (map fst weather_keywords).
Proof. repeat constructor; cbn; intuition discriminate. Qed.

Lemma in_detect_styles (s : Style) (text : string) :
  In s (detect_styles style_keywords text) <->
  exists keywords, In (s, keywords) style_keywords /\ any_in keywords text = true.
Proof.
  unfold detect_styles. rewrite in_map_iff. split.
  - intros [[s' keywords] [Hs Hin]]. cbn in Hs. subst s'.
    apply List.filter_In in Hin as [Hin Hany]. eauto.
  - intros [keywords [Hin Hany]]. exists (s, keywords). split; [reflexivity |].
    apply List.filter_In. auto.
Qed.

(** X4. The styles of a labelling are the styles with a keyword in the
    lower-cased description, each once: none when no style keyword
    occurs, several when keywords of several styles do. *)
Theorem label_styles_detected (description : string) :
  exists l styles,
    label_clothing_from_text description = Return l /\
    l_styles l = map Style_value styles /\
    List.NoDup (l_styles l) /\
    (forall s, In s styles <->
       exists keywords, In (s, keywords) style_keywords /\
                        any_in keywords (lower description) = true).
Proof.
  unfold label_clothing_from_text.
  destruct (calculate_confidence_returns (lower description)) as [q ->].
  eexists. exists (detect_styles style_keywords (lower description)).
  split; [reflexivity |]. cbn [l_styles]. split; [reflexivity |]. split.
  - apply NoDup_map_injective; [exact Style_value_inj |].
    apply NoDup_map_filter, style_keywords_nodup.
  - intros s. apply in_detect_styles.
Qed.

(** X5. The weather suitability of a labelling is never empty and has no
    band twice. *)
Theorem label_weather_nonempty (description : string) :
  exists l bands,
    label_clothing_from_text description = Return l /\
    l_weather_suitability l = map WeatherType_value bands /\
    bands <> [] /\ List.NoDup bands.
Proof.
  unfold label_clothing_from_text.
  destruct (calculate_confidence_returns (lower description)) as [q ->].
  eexists. exists (_predict_weather_suitability (lower description)).
  split; [reflexivity |]. cbn [l_weather_suitability]. split; [reflexivity |].
  unfold _predict_weather_suitability. cbv zeta.
  destruct (nonempty _) eqn:Hne; cbn [negb].
  - split; [now apply nonempty_true |].
    apply NoDup_map_filter, weather_keywords_nodup.
  - repeat match goal with |- context [if ?b then _ else _] => destruct b end;
      (split; [discriminate | repeat constructor; cbn; intuition discriminate]).
Qed.

Lemma detect_type_none (table : list (ClothingType * list string)) (text : string) :
  detect_type table text = None <->
  forall t keywords, In (t, keywords) table -> any_in keywords text = false.
Proof.
  induction table as [| [t' kws'] table IH]; cbn [detect_type].
  - split; [intros _ t keywords [] | reflexivity].
  - destruct (any_in kws' text) eqn:Hany.
    + split; [discriminate |]. intros H.
      rewrite (H t' kws') in Hany by (now left). discriminate.
    + rewrite IH. split.
      * intros H t keywords [He | Hin]; [congruence | eauto].
      * intros H t keywords Hin. apply (H t). now right.
Qed.

Lemma detect_type_some (table : list (ClothingType * list string)) (text : string)
    (t : ClothingType) :
  detect_type table text = Some t ->
  exists keywords, In (t, keywords) table /\ any_in keywords text = true.
Proof.
  induction table as [| [t' kws'] table IH]; cbn [detect_type]; [discriminate |].
  destruct (any_in kws' text) eqn:Hany.
  - intros [= <-]. exists kws'. split; [now left | assumption].
  - intros H. destruct (IH H) as [keywords [Hin Hk]].
    exists keywords. split; [now right | assumption].
Qed.

(** X6. The type of a labelling is "unknown" exactly when no type keyword
    occurs in the lower-cased description; otherwise it is the value of a
    type one of whose keywords occurs. *)
Theorem label_type_unknown_iff (description : string) :
  exists l,
    label_clothing_from_text description = Return l /\
    (l_type l = "unknown" <->
       forall t keywords, In (t, keywords) clothing_keywords ->
         any_in keywords (lower description) = false) /\
    (l_type l <> "unknown" ->
       exists t keywords,
         In (t, keywords) clothing_keywords /\
         any_in keywords (lower description) = true /\
         l_type l = ClothingType_value t).
Proof.
  unfold label_clothing_from_text.
  destruct (calculate_confidence_returns (lower description)) as [q ->].
  eexists. split; [reflexivity |]. cbn [l_type].
  destruct (detect_type clothing_keywords (lower description)) as [t |] eqn:Hd.
  - pose proof (detect_type_some _ _ _ Hd) as [keywords [Hin Hany]].
    split; [split |].
    + intros Hu. destruct t; discriminate Hu.
    + intros H. rewrite (H t keywords Hin) in Hany. discriminate.
    + intros _. eauto.
  - split; [split; [intros _ | reflexivity] |].
    + now apply detect_type_none.
    + intros H. now contradiction H.
Qed.

End Detection.

(** * Further properties of the outfit assembly *)

Section AssemblyMore.

Variable items : list ClothingItem.

Lemma nonempty_filter {A} (q : A -> bool) (xs : list A) :
  nonempty (List.filter q xs) = true -> nonempty xs = true.
Proof. destruct xs; [discriminate | reflexivity]. Qed.

Lemma nonempty_in {A} (x : A) (xs : list A) : In x xs -> nonempty xs = true.
Proof. destruct xs; [intros [] | reflexivity]. Qed.

Lemma no_formal_candidate (p : ClothingItem -> bool) :
  has_formal items = false ->
  nonempty (List.filter is_formal (List.filter p items)) = false.
Proof.
  unfold has_formal, len. intros H.
  destruct (List.filter is_formal (List.filter p items)) as [| x l] eqn:E;
    [reflexivity |].
  assert (Hx : In x (List.filter is_formal items)).
  { assert (Hin : In x (x :: l)) by now left. rewrite <- E in Hin.
    apply List.filter_In in Hin as [Hin Hf].
    apply List.filter_In in Hin as [Hin _]. apply List.filter_In. auto. }
  destruct (List.filter is_formal items); [destruct Hx |].
  rewrite Z.gtb_ltb, Z.ltb_ge in H. cbn [List.length] in H. lia.
Qed.

Lemma pick_formal (cands : list ClothingItem) (x : ClothingItem) :
  nonempty (List.filter is_formal cands) = true ->
  In x (List.filter is_formal cands) -> pick_if_any cands [x].
Proof.
  intros Hf Hx. unfold pick_if_any. rewrite (nonempty_filter _ _ Hf).
  exists x. unfold pool. rewrite Hf. auto.
Qed.

Lemma pick_plain (cands : list ClothingItem) (x : ClothingItem) :
  nonempty (List.filter is_formal cands) = false ->
  In x cands -> pick_if_any cands [x].
Proof.
  intros Hf Hx. unfold pick_if_any. rewrite (nonempty_in _ _ Hx).
  exists x. unfold pool. rewrite Hf. auto.
Qed.

Lemma pick_none (cands : list ClothingItem) :
  nonempty cands = false -> pick_if_any cands [].
Proof. intros Hc. unfold pick_if_any. now rewrite Hc. Qed.

(** A step that appends a pick among the candidates. *)
Ltac step_picks Hhf :=
  repeat match goal with
  | |- returns (if ?b then _ else _) _ => destruct b eqn:?
  | |- returns (ret _) (picks _ _) =>
      apply returns_ret; exists []; split;
      [ apply pick_none; assumption | now rewrite app_nil_r ]
  | |- returns (bind (random_choice _) _) (picks _ _) =>
      eapply returns_impl; [ apply returns_append; assumption |];
      let o := fresh "o" in let x := fresh "x" in let Hx := fresh "Hx" in
      intros o [x [Hx ->]]; exists [x]; split; [| reflexivity];
      first [ apply pick_formal; assumption
            | apply pick_plain;
              [ first [ assumption | apply no_formal_candidate; exact Hhf ]
              | assumption ] ]
  end.

Lemma create_outfit_assembled :
  returns (_create_outfit_combination items) (assembled items).
Proof.
  unfold _create_outfit_combination. cbv zeta.
  change (len (List.filter is_formal items) >? 0) with (has_formal items).
  destruct (has_formal items) eqn:Hhf; cbn [negb andb].
  all: apply returns_bind with
         (P := fun b : bool =>
                 (b = true -> nonempty (dresses_of items) = true) /\
                 (b = false -> nonempty (dresses_of items) = false \/
                               has_formal items = true)).
  all: try (unfold dresses_of;
            destruct (nonempty (List.filter _ items)) eqn:Hd;
            [ first [ apply returns_ret; split; [reflexivity | discriminate]
                    | eapply returns_impl; [now apply returns_choice |];
                      intros b _; split; [reflexivity | right; exact Hhf] ]
            | apply returns_ret; split; [discriminate | now left] ]).
  all: intros choose_dress [Hdress Hnodress].
  all: apply returns_bind with
         (P := fun body =>
                 (nonempty (dresses_of items) = true /\ one_of (dresses_of items) body) \/
                 ((nonempty (dresses_of items) = false \/ has_formal items = true) /\
                  exists tops bottoms,
                    body = tops ++ bottoms /\
                    pick_if_any (tops_of items) tops /\
                    pick_if_any (bottoms_of items) bottoms)).
  all: try (destruct choose_dress;
            [ eapply returns_impl; [apply returns_append; now apply Hdress |];
              intros o [x [Hx ->]]; left; split; [now apply Hdress |];
              exists x; auto
            | apply returns_bind with (P := picks (tops_of items) []);
              [ unfold tops_of; step_picks Hhf |];
              intros o1 [tops [Htops ->]];
              eapply returns_impl with (P := picks (bottoms_of items) ([] ++ tops));
              [ unfold bottoms_of; step_picks Hhf |];
              intros o2 [bottoms [Hbottoms ->]]; right;
              split; [now apply Hnodress |];
              exists tops, bottoms; auto ]).
  all: intros body Hbody.
  all: apply returns_bind with (P := picks (shoes_of items) body);
         [unfold shoes_of; step_picks Hhf |].
  all: intros o3 [shoes [Hshoes ->]].
  all: apply returns_bind with
         (P := fun o =>
                 exists outerwear,
                   (if nonempty (outerwear_of items)
                    then one_of (pool (outerwear_of items)) outerwear \/
                         (needs_outerwear items = false /\ outerwear = [])
                    else outerwear = []) /\
                   o = (body ++ shoes) ++ outerwear).
  all: try (intros o4 [outerwear [Houter ->]]; apply returns_ret;
            exists body, shoes, outerwear; rewrite app_assoc; auto).
  all: unfold outerwear_of;
       destruct (nonempty (List.filter
                   (fun item => ClothingType_eqb (type item) JACKET) items)) eqn:Hout;
       cbv iota.
  all: try (apply returns_ret; exists []; split;
            [reflexivity | now rewrite app_nil_r]).
  all: apply returns_bind with
         (P := fun add : bool => add = false -> needs_outerwear items = false).
  all: try (unfold needs_outerwear, outerwear_of; rewrite Hhf; cbn [andb];
            repeat match goal with
                   | |- returns (if ?b then _ else _) _ => destruct b eqn:?
                   end;
            first [ apply returns_ret; discriminate
                  | eapply returns_impl; [now apply returns_choice |];
                    intros b _ _; reflexivity ]).
  all: intros add Hadd; destruct add.
  all: try (apply returns_ret; exists []; split;
            [right; split; [now apply Hadd | reflexivity]
            | now rewrite app_nil_r]).
  all: apply returns_impl with
         (P := picks (List.filter
                        (fun item => ClothingType_eqb (type item) JACKET) items)
                     (body ++ shoes));
         [step_picks Hhf |].
  all: intros o [part [Hpart ->]]; exists part; split; [left | reflexivity].
  all: unfold pick_if_any in Hpart; rewrite Hout in Hpart; exact Hpart.
Qed.

End AssemblyMore.

Section AssembledOutfits.

Variable items : list ClothingItem.

Lemma pool_incl (cands : list ClothingItem) (x : ClothingItem) :
  In x (pool cands) -> In x cands.
Proof.
  unfold pool. destruct (nonempty _); [| auto].
  intros H. now apply List.filter_In in H.
Qed.

Lemma pool_formal (cands : list ClothingItem) (x y : ClothingItem) :
  In y cands -> is_formal y = true -> In x (pool cands) -> is_formal x = true.
Proof.
  intros Hy Hf. unfold pool.
  assert (Hne : nonempty (List.filter is_formal cands) = true).
  { apply (nonempty_in y). apply List.filter_In. auto. }
  rewrite Hne. intros H. now apply List.filter_In in H.
Qed.

Lemma nonempty_filter_iff {A} (p : A -> bool) (xs : list A) :
  nonempty (List.filter p xs) = true <-> exists x, In x xs /\ p x = true.
Proof.
  split.
  - destruct (List.filter p xs) as [| x l] eqn:E; [discriminate |]. intros _.
    exists x. apply List.filter_In. rewrite E. now left.
  - intros [x Hx]. apply (nonempty_in x). now apply List.filter_In.
Qed.

Lemma dress_type (x : ClothingItem) : In x (dresses_of items) -> type x = DRESS.
Proof.
  intros H. apply List.filter_In in H as [_ H].
  destruct (type x); first [reflexivity | discriminate H].
Qed.

Lemma jacket_type (x : ClothingItem) :
  In x (pool (outerwear_of items)) -> type x = JACKET.
Proof.
  intros H. apply pool_incl, List.filter_In in H as [_ H].
  destruct (type x); first [reflexivity | discriminate H].
Qed.

Lemma top_type (x : ClothingItem) :
  In x (pool (tops_of items)) -> type_in (type x) top_types = true.
Proof. intros H. now apply pool_incl, List.filter_In in H. Qed.

Lemma bottom_type (x : ClothingItem) :
  In x (pool (bottoms_of items)) -> type_in (type x) bottom_types = true.
Proof. intros H. now apply pool_incl, List.filter_In in H. Qed.

Lemma shoe_type (x : ClothingItem) :
  In x (pool (shoes_of items)) -> type_in (type x) shoe_types = true.
Proof. intros H. now apply pool_incl, List.filter_In in H. Qed.

(** Where the members of an assembled outfit come from. *)
Lemma assembled_members (outfit : list ClothingItem) :
  assembled items outfit ->
  forall x, In x outfit ->
    In x (dresses_of items) \/ In x (pool (tops_of items)) \/
    In x (pool (bottoms_of items)) \/ In x (pool (shoes_of items)) \/
    In x (pool (outerwear_of items)).
Proof.
  assert (Hpick : forall cands part x,
            pick_if_any cands part -> In x part -> In x (pool cands)).
  { intros cands part x Hp Hx. unfold pick_if_any in Hp.
    destruct (nonempty cands); [| subst part; destruct Hx].
    destruct Hp as [y [Hy ->]]. destruct Hx as [<- | []]. assumption. }
  intros [body [shoes [outerwear [-> [Hbody [Hshoes Houter]]]]]] x Hx.
  rewrite !in_app_iff in Hx. destruct Hx as [Hx | [Hx | Hx]].
  - destruct Hbody as [[_ [y [Hy ->]]] | [_ [tops [bottoms [-> [Ht Hb]]]]]].
    + destruct Hx as [<- | []]. now left.
    + rewrite in_app_iff in Hx. destruct Hx as [Hx | Hx]; eauto 6.
  - eauto 6.
  - destruct (nonempty (outerwear_of items)); [| subst outerwear; destruct Hx].
    destruct Houter as [[y [Hy ->]] | [_ ->]]; [| destruct Hx].
    destruct Hx as [<- | []]. auto 6.
Qed.

Lemma count_types_app types (xs ys : list ClothingItem) :
  count_types types (map details_of (xs ++ ys)) =
    count_types types (map details_of xs) + count_types types (map details_of ys).
Proof.
  unfold count_types, count_if. rewrite map_app, List.filter_app, List.length_app. lia.
Qed.

(** The number of entries a pick contributes to a category. *)
Lemma count_pick_in (cands part : list ClothingItem) (types counted : list ClothingType) :
  pick_if_any cands part ->
  (forall x, In x (pool cands) -> type_in (type x) types = true) ->
  (forall t, type_in t types = true -> type_in t counted = true) ->
  count_types counted (map details_of part) = if nonempty cands then 1 else 0.
Proof.
  intros Hp Ht Hc. unfold pick_if_any in Hp.
  destruct (nonempty cands); [| now subst part].
  destruct Hp as [x [Hx ->]]. rewrite count_types_cons, count_types_nil.
  now rewrite (Hc _ (Ht x Hx)).
Qed.

Lemma count_pick_out (cands part : list ClothingItem) (types counted : list ClothingType) :
  pick_if_any cands part ->
  (forall x, In x (pool cands) -> type_in (type x) types = true) ->
  (forall t, type_in t types = true -> type_in t counted = false) ->
  count_types counted (map details_of part) = 0.
Proof.
  intros Hp Ht Hc. unfold pick_if_any in Hp.
  destruct (nonempty cands); [| now subst part].
  destruct Hp as [x [Hx ->]]. rewrite count_types_cons, count_types_nil.
  now rewrite (Hc _ (Ht x Hx)).
Qed.

Lemma count_single (x : ClothingItem) (t : ClothingType) (counted : list ClothingType) :
  type x = t ->
  count_types counted (map details_of [x]) = if type_in t counted then 1 else 0.
Proof.
  intros <-. rewrite count_types_cons, count_types_nil. destruct (type_in _ _); lia.
Qed.

(** Whether one list of types lies inside, or outside, another. *)
Ltac types_side := intros t; destruct t; cbn; congruence.

(** The number of entries of each category in an assembled outfit. *)
Lemma assembled_counts (outfit : list ClothingItem) :
  assembled items outfit ->
  count_types shoe_types (map details_of outfit) =
    (if nonempty (shoes_of items) then 1 else 0) /\
  ((nonempty (dresses_of items) = true /\
    count_types [DRESS] (map details_of outfit) = 1 /\
    count_types top_types (map details_of outfit) = 0 /\
    count_types bottom_types (map details_of outfit) = 0) \/
   ((nonempty (dresses_of items) = false \/ has_formal items = true) /\
    count_types [DRESS] (map details_of outfit) = 0 /\
    count_types top_types (map details_of outfit) =
      (if nonempty (tops_of items) then 1 else 0) /\
    count_types bottom_types (map details_of outfit) =
      (if nonempty (bottoms_of items) then 1 else 0))) /\
  ((nonempty (outerwear_of items) = true /\
    count_types [JACKET] (map details_of outfit) = 1) \/
   ((nonempty (outerwear_of items) = false \/ needs_outerwear items = false) /\
    count_types [JACKET] (map details_of outfit) = 0)).
Proof.
  intros [body [shoes [outerwear [-> [Hbody [Hshoes Houter]]]]]].
  rewrite !count_types_app.
  (* the shoes *)
  pose proof (count_pick_in _ _ shoe_types shoe_types Hshoes shoe_type
                ltac:(types_side)) as Hs1.
  pose proof (count_pick_out _ _ shoe_types [DRESS] Hshoes shoe_type
                ltac:(types_side)) as Hs2.
  pose proof (count_pick_out _ _ shoe_types top_types Hshoes shoe_type
                ltac:(types_side)) as Hs3.
  pose proof (count_pick_out _ _ shoe_types bottom_types Hshoes shoe_type
                ltac:(types_side)) as Hs4.
  pose proof (count_pick_out _ _ shoe_types [JACKET] Hshoes shoe_type
                ltac:(types_side)) as Hs5.
  rewrite Hs1, Hs2, Hs3, Hs4, Hs5.
  (* the jacket *)
  assert (Ho : (nonempty (outerwear_of items) = true /\
                forall counted,
                  count_types counted (map details_of outerwear) =
                    if type_in JACKET counted then 1 else 0) \/
               ((nonempty (outerwear_of items) = false \/
                 needs_outerwear items = false) /\ outerwear = [])).
  { destruct (nonempty (outerwear_of items)); [| auto].
    destruct Houter as [[y [Hy ->]] | [Hn ->]]; [| auto].
    left. split; [reflexivity |]. intros counted.
    apply count_single. now apply jacket_type. }
  (* the body *)
  destruct Hbody as [[Hd [x [Hx ->]]] | [Hd [tops [bottoms [-> [Ht Hb]]]]]].
  - apply dress_type in Hx.
    rewrite !(count_single x DRESS) by assumption. cbn [type_in existsb ClothingType_eqb orb].
    destruct Ho as [[Hne Ho] | [Hn ->]].
    + rewrite !Ho. cbn [type_in existsb ClothingType_eqb orb top_types bottom_types shoe_types].
      split; [lia |]. split; [left | left; split; [assumption | lia]].
      repeat split; [assumption | lia ..].
    + rewrite !count_types_nil.
      cbn [type_in existsb ClothingType_eqb orb top_types bottom_types shoe_types].
      split; [lia |]. split; [left | right; split; [assumption | lia]].
      repeat split; [assumption | lia ..].
  - rewrite !count_types_app.
    rewrite (count_pick_out _ _ top_types shoe_types Ht top_type ltac:(types_side)).
    rewrite (count_pick_out _ _ top_types [DRESS] Ht top_type ltac:(types_side)).
    rewrite (count_pick_in _ _ top_types top_types Ht top_type ltac:(types_side)).
    rewrite (count_pick_out _ _ top_types bottom_types Ht top_type ltac:(types_side)).
    rewrite (count_pick_out _ _ top_types [JACKET] Ht top_type ltac:(types_side)).
    rewrite (count_pick_out _ _ bottom_types shoe_types Hb bottom_type ltac:(types_side)).
    rewrite (count_pick_out _ _ bottom_types [DRESS] Hb bottom_type ltac:(types_side)).
    rewrite (count_pick_out _ _ bottom_types top_types Hb bottom_type ltac:(types_side)).
    rewrite (count_pick_in _ _ bottom_types bottom_types Hb bottom_type ltac:(types_side)).
    rewrite (count_pick_out _ _ bottom_types [JACKET] Hb bottom_type ltac:(types_side)).
    destruct Ho as [[Hne Ho] | [Hn ->]].
    + rewrite !Ho. cbn [type_in existsb ClothingType_eqb orb top_types bottom_types shoe_types].
      split; [lia |]. split; [right | left; split; [assumption | lia]].
      split; [assumption |].
      destruct (nonempty (tops_of items)), (nonempty (bottoms_of items)); lia.
    + rewrite !count_types_nil.
      split; [lia |]. split; [right | right; split; [assumption | lia]].
      split; [assumption |].
      destruct (nonempty (tops_of items)), (nonempty (bottoms_of items)); lia.
Qed.

End AssembledOutfits.

Section AssemblyRules.

Lemma is_formal_iff (x : ClothingItem) : is_formal x = true <-> 7 <= formality_level x.
Proof. unfold is_formal. apply Z.geb_le. Qed.

Lemma has_formal_iff (items : list ClothingItem) :
  has_formal items = true <-> exists x, In x items /\ 7 <= formality_level x.
Proof.
  unfold has_formal, len. split.
  - destruct (List.filter is_formal items) as [| x l] eqn:E; [discriminate |].
    intros _. exists x. rewrite <- is_formal_iff. apply List.filter_In.
    rewrite E. now left.
  - intros [x [Hin Hf]]. apply is_formal_iff in Hf.
    assert (Hx : In x (List.filter is_formal items)) by (apply List.filter_In; auto).
    destruct (List.filter is_formal items); [destruct Hx |].
    cbn [List.length]. apply Z.gtb_lt. lia.
Qed.

Lemma jacket_candidate_iff (items : list ClothingItem) :
  nonempty (outerwear_of items) = true <-> exists x, In x items /\ type x = JACKET.
Proof.
  unfold outerwear_of. rewrite nonempty_filter_iff. split; intros [x [Hin Ht]];
    exists x; (split; [assumption |]).
  - destruct (type x); first [reflexivity | discriminate Ht].
  - now rewrite Ht.
Qed.

(** X7. A pair of shoes is part of the outfit exactly when some candidate is
    a pair of shoes. *)
Theorem assembly_shoes_iff (items : list ClothingItem) (tp : tape) :
  exists outfit tp',
    _create_outfit_combination items tp = (Return outfit, tp') /\
    (count_types shoe_types (map details_of outfit) = 1 <->
     exists x, In x items /\ type_in (type x) shoe_types = true).
Proof.
  destruct (create_outfit_assembled items tp) as [outfit [tp' [Hrun Ha]]].
  exists outfit, tp'. split; [exact Hrun |].
  destruct (assembled_counts items outfit Ha) as [Hs _]. rewrite Hs.
  rewrite <- (nonempty_filter_iff _ items).
  change (List.filter (fun x => type_in (type x) shoe_types) items)
    with (shoes_of items).
  destruct (nonempty (shoes_of items)); split; congruence.
Qed.

(** X8. When some candidate is a top the outfit has a top or a dress; and an
    outfit without a dress has a top exactly when some candidate is a
    top, and a bottom exactly when some candidate is a bottom. *)
Theorem assembly_top_and_bottom (items : list ClothingItem) (tp : tape) :
  exists outfit tp',
    _create_outfit_combination items tp = (Return outfit, tp') /\
    ((exists x, In x items /\ type_in (type x) top_types = true) ->
       count_types [DRESS] (map details_of outfit)
         + count_types top_types (map details_of outfit) = 1) /\
    (count_types [DRESS] (map details_of outfit) = 0 ->
       (count_types top_types (map details_of outfit) = 1 <->
          exists x, In x items /\ type_in (type x) top_types = true) /\
       (count_types bottom_types (map details_of outfit) = 1 <->
          exists x, In x items /\ type_in (type x) bottom_types = true)).
Proof.
  destruct (create_outfit_assembled items tp) as [outfit [tp' [Hrun Ha]]].
  exists outfit, tp'. split; [exact Hrun |].
  destruct (assembled_counts items outfit Ha) as [_ [Hbody _]].
  unfold tops_of, bottoms_of in Hbody.
  rewrite <- !(nonempty_filter_iff _ items).
  destruct Hbody as [[_ [Hd [Ht Hb]]] | [_ [Hd [Ht Hb]]]];
    rewrite Hd, Ht, Hb;
    change top_types with [T_SHIRT; HOODIE; SWEATER];
    change bottom_types with [JEANS; SHORTS; PANTS].
  - split; [reflexivity |]. intros H. discriminate H.
  - split.
    + intros ->. reflexivity.
    + intros _. split;
        match goal with |- context [nonempty ?l] => destruct (nonempty l) end;
        split; congruence.
Qed.

Lemma bind_run {A B} (m : Rnd A) (f : A -> Rnd B) (tp tp1 : tape) (a : A) :
  m tp = (Return a, tp1) -> bind m f tp = f a tp1.
Proof. intros H. unfold bind. now rewrite H. Qed.

(** A step that leaves the first item of the outfit in place. *)
Ltac step_head :=
  repeat match goal with
  | |- returns (if ?b then _ else _) _ => destruct b eqn:?
  | |- returns (ret (_ :: _)) _ => apply returns_ret; reflexivity
  | |- returns (bind (random_choice _) _) _ =>
      eapply returns_impl; [ apply returns_append; assumption |];
      let o := fresh "o" in let x := fresh "x" in let Hx := fresh "Hx" in
      intros o [x [Hx ->]]; reflexivity
  end.

(** Without a formal candidate the first random number picks the dress:
    no coin is flipped before it. *)
Lemma create_outfit_dress_first (items : list ClothingItem) (tp : tape) :
  has_formal items = false ->
  nonempty (dresses_of items) = true ->
  exists d tp1 outfit tp',
    random_choice (dresses_of items) tp = (Return d, tp1) /\
    _create_outfit_combination items tp = (Return outfit, tp') /\
    hd_error outfit = Some d.
Proof.
  intros Hhf Hd.
  destruct (returns_choice (dresses_of items) Hd tp) as [d [tp1 [Hpick _]]].
  exists d, tp1.
  unfold _create_outfit_combination. cbv zeta.
  change (len (List.filter is_formal items) >? 0) with (has_formal items).
  change (List.filter (fun item => ClothingType_eqb (type item) DRESS) items)
    with (dresses_of items).
  rewrite Hhf, Hd. cbn [negb andb].
  rewrite (bind_run (ret true) _ tp tp true) by reflexivity. cbv iota.
  erewrite (bind_run _ _ tp tp1 [d]);
    [| rewrite (bind_run _ _ tp tp1 d Hpick); reflexivity].
  match goal with
  | |- exists outfit tp', _ /\ ?m tp1 = _ /\ _ =>
      assert (Hrest : returns m (fun o => hd_error o = Some d))
  end.
  { apply returns_bind with (P := fun o => hd_error o = Some d); [step_head |].
    intros o1 H1. destruct o1 as [| d1 o1]; [discriminate H1 |].
    cbn [hd_error] in H1. injection H1 as ->.
    apply returns_bind with (P := fun o => hd_error o = Some d);
      [| intros o2 H2; now apply returns_ret].
    match goal with
    | |- returns (if ?b then _ else _) _ => destruct b eqn:?
    end; [| step_head].
    apply returns_bind with (P := fun _ : bool => True).
    - repeat match goal with
             | |- returns (if ?b then _ else _) _ => destruct b
             end; try (now apply returns_ret).
      eapply returns_impl; [now apply returns_choice | auto].
    - intros add _. step_head. }
  destruct (Hrest tp1) as [outfit [tp' [Hrun Hhd]]]. eauto.
Qed.

(** X9. When no candidate has formality 7 or more and some candidate is a
    dress, the outfit has a dress, and so neither a top nor a bottom; the
    dress comes first and is the one the first random number picks among
    the candidate dresses, so no coin is flipped before it. *)
Theorem assembly_dress_without_formal (items : list ClothingItem) (tp : tape) :
  exists outfit tp',
    _create_outfit_combination items tp = (Return outfit, tp') /\
    ((forall x, In x items -> formality_level x < 7) ->
     (exists x, In x items /\ type x = DRESS) ->
     count_types [DRESS] (map details_of outfit) = 1 /\
     count_types top_types (map details_of outfit) = 0 /\
     count_types bottom_types (map details_of outfit) = 0 /\
     exists d tp1,
       random_choice
         (List.filter (fun item => ClothingType_eqb (type item) DRESS) items) tp
         = (Return d, tp1) /\
       hd_error outfit = Some d).
Proof.
  destruct (create_outfit_assembled items tp) as [outfit [tp' [Hrun Ha]]].
  exists outfit, tp'. split; [exact Hrun |].
  intros Hcasual [d [Hin Hd]].
  assert (Hne : nonempty (dresses_of items) = true).
  { apply (nonempty_in d). apply List.filter_In. split; [assumption |].
    now rewrite Hd. }
  assert (Hhf : has_formal items = false).
  { apply not_true_iff_false. intros Hformal.
    apply has_formal_iff in Hformal as [x [Hx Hf]].
    specialize (Hcasual x Hx). lia. }
  destruct (assembled_counts items outfit Ha) as [_ [Hbody _]].
  destruct (create_outfit_dress_first items tp Hhf Hne)
    as [d1 [tp1 [outfit1 [tp1' [Hpick [Hrun1 Hhd]]]]]].
  rewrite Hrun in Hrun1. injection Hrun1 as <- <-.
  destruct Hbody as [[_ [H1 [H2 H3]]] | [[Hnone | Hformal] _]]; [| congruence ..].
  repeat split; try assumption. exists d1, tp1. split; assumption.
Qed.

(** Two casual dresses: the number 1 at the head of the tape picks the
    second one. *)
Example assembly_two_dresses :
  map name
    (match _create_outfit_combination
             [ item "Sun Dress" DRESS CASUAL [HOT] "yellow" ["summer"] 5 2;
               item "Tea Dress" DRESS CASUAL [HOT] "green" ["summer"] 6 2 ]
             [1]%nat with
     | (Return outfit, _) => outfit
     | (Raise _, _) => []
     end) = ["Tea Dress"].
Proof. vm_compute. reflexivity. Qed.

(** X10. A jacket is part of the outfit whenever a candidate jacket suits cold
    or rainy weather, and whenever a candidate jacket has formality 7 or
    more; it is never part of it when no candidate is a jacket. *)
Theorem assembly_outerwear_when_needed (items : list ClothingItem) (tp : tape) :
  exists outfit tp',
    _create_outfit_combination items tp = (Return outfit, tp') /\
    ((exists x, In x items /\ type x = JACKET /\
                (weather_in COLD (weather_suitability x)
                 || weather_in RAINY (weather_suitability x)) = true) ->
       count_types [JACKET] (map details_of outfit) = 1) /\
    ((exists x, In x items /\ type x = JACKET /\ 7 <= formality_level x) ->
       count_types [JACKET] (map details_of outfit) = 1) /\
    (count_types [JACKET] (map details_of outfit) = 1 ->
       exists x, In x items /\ type x = JACKET).
Proof.
  destruct (create_outfit_assembled items tp) as [outfit [tp' [Hrun Ha]]].
  exists outfit, tp'. split; [exact Hrun |].
  destruct (assembled_counts items outfit Ha) as [_ [_ Hj]].
  assert (Hcand : forall x, In x items -> type x = JACKET -> In x (outerwear_of items)).
  { intros x Hin Ht. apply List.filter_In. split; [assumption | now rewrite Ht]. }
  assert (Hneeds : needs_outerwear items = true ->
                   count_types [JACKET] (map details_of outfit) = 1).
  { intros Hn. destruct Hj as [[_ H] | [[Hnone | Hno] _]]; [exact H | | congruence].
    unfold needs_outerwear in Hn.
    destruct (outerwear_of items); [| discriminate Hnone].
    cbn [existsb orb] in Hn. rewrite andb_false_r in Hn. discriminate Hn. }
  split; [| split].
  - intros [x [Hin [Ht Hw]]]. apply Hneeds. unfold needs_outerwear.
    apply orb_true_iff. left. apply existsb_exists. exists x.
    split; [now apply Hcand |]. rewrite Ht. cbn [type_in existsb ClothingType_eqb orb andb].
    now rewrite orb_false_r.
  - intros [x [Hin [Ht Hf]]]. apply Hneeds. unfold needs_outerwear.
    apply orb_true_iff. right. apply andb_true_iff. split.
    + apply has_formal_iff. eauto.
    + apply existsb_exists. exists x. split; [now apply Hcand |].
      now apply is_formal_iff.
  - intros H1. apply jacket_candidate_iff.
    destruct Hj as [[Hne _] | [_ H0]]; [exact Hne | lia].
Qed.

(** X11. Formal candidates are preferred: a chosen top, bottom, pair of shoes
    or jacket has formality 7 or more whenever some candidate of the same
    category has. *)
Theorem assembly_prefers_formal (items : list ClothingItem) (tp : tape) :
  exists outfit tp',
    _create_outfit_combination items tp = (Return outfit, tp') /\
    forall types, In types [top_types; bottom_types; shoe_types; [JACKET]] ->
    forall x, In x outfit -> type_in (type x) types = true ->
      (exists y, In y items /\ type_in (type y) types = true /\
                 7 <= formality_level y) ->
      7 <= formality_level x.
Proof.
  destruct (create_outfit_assembled items tp) as [outfit [tp' [Hrun Ha]]].
  exists outfit, tp'. split; [exact Hrun |].
  intros types Htypes x Hx Ht [y [Hy [Hty Hfy]]].
  apply is_formal_iff. apply is_formal_iff in Hfy.
  pose proof (assembled_members items outfit Ha x Hx) as Hfrom.
  assert (Hjy : type_in (type y) [JACKET] = true -> In y (outerwear_of items)).
  { intros H. apply List.filter_In. split; [assumption |].
    destruct (type y); first [reflexivity | discriminate H]. }
  cbn [In] in Htypes.
  destruct Hfrom as [Hd | [Hp | [Hp | [Hp | Hp]]]].
  - apply dress_type in Hd. rewrite Hd in Ht.
    destruct Htypes as [<- | [<- | [<- | [<- | []]]]]; discriminate Ht.
  - pose proof (top_type items x Hp) as Hk.
    destruct Htypes as [<- | [<- | [<- | [<- | []]]]];
      [ apply (pool_formal (tops_of items) x y);
        [apply List.filter_In; auto | assumption | assumption]
      | destruct (type x); discriminate ..].
  - pose proof (bottom_type items x Hp) as Hk.
    destruct Htypes as [<- | [<- | [<- | [<- | []]]]];
      [ destruct (type x); discriminate
      | apply (pool_formal (bottoms_of items) x y);
        [apply List.filter_In; auto | assumption | assumption]
      | destruct (type x); discriminate ..].
  - pose proof (shoe_type items x Hp) as Hk.
    destruct Htypes as [<- | [<- | [<- | [<- | []]]]];
      [ destruct (type x); discriminate ..
      | apply (pool_formal (shoes_of items) x y);
        [apply List.filter_In; auto | assumption | assumption]
      | destruct (type x); discriminate ].
  - pose proof (jacket_type items x Hp) as Hk. rewrite Hk in Ht.
    destruct Htypes as [<- | [<- | [<- | [<- | []]]]];
      [ discriminate Ht ..
      | apply (pool_formal (outerwear_of items) x y); auto ].
Qed.

End AssemblyRules.

(** * Further properties of the suggestion engine *)

Section EngineMore.

Variable self : OutfitSuggestionEngine.t.

Lemma filter_items_by_weather_incl (w : WeatherType) :
  incl (_filter_items_by_weather self w) (wardrobe self).
Proof. apply incl_filter. Qed.

Lemma outfit_shape_entries items outfit :
  outfit_shape items outfit ->
  len outfit <= 4 /\
  count_types [SKIRT] (map details_of outfit) = 0 /\
  count_types [DRESS] (map details_of outfit)
    + count_types top_types (map details_of outfit)
    + count_types bottom_types (map details_of outfit)
    + count_types shoe_types (map details_of outfit)
    + count_types [JACKET] (map details_of outfit) = len outfit.
Proof.
  intros [body [shoes [outerwear [-> [Hbody [Hshoes Houter]]]]]].
  destruct Hbody as [[d [_ [Hd ->]]] | [tops [bottoms [-> [Ht Hb]]]]];
    [| destruct Ht as [-> | [t [_ [Ht ->]]]];
       destruct Hb as [-> | [b [_ [Hb ->]]]] ];
    destruct Hshoes as [-> | [s [_ [Hs ->]]]];
    destruct Houter as [-> | [o [_ [Ho ->]]]];
    cbn [app];
    rewrite ?count_types_cons; cbn [map]; rewrite ?count_types_nil;
    repeat match goal with
           | H : type ?x = DRESS |- _ => rewrite H; clear H
           | H : type_in (type ?x) _ = true |- _ =>
               destruct (type x); try discriminate H; clear H
           end;
    unfold len; cbn; lia.
Qed.

(** X12. The names and the details of a suggestion list the same chosen items
    in the same order; there are at most four, each is an item of the
    wardrobe, each is a dress, a top, a bottom, a pair of shoes or a
    jacket, and none is a skirt. *)
Theorem suggest_outfit_entries (weather vibe occasion : string) (tp : tape) :
  exists s tp',
    suggest_outfit self weather vibe occasion tp = (Return s, tp') /\
    s_outfit s = map d_name (s_items_details s) /\
    len (s_items_details s) <= 4 /\
    (forall d, In d (s_items_details s) -> In d (map details_of (wardrobe self))) /\
    count_types [SKIRT] (s_items_details s) = 0 /\
    count_types [DRESS] (s_items_details s)
      + count_types top_types (s_items_details s)
      + count_types bottom_types (s_items_details s)
      + count_types shoe_types (s_items_details s)
      + count_types [JACKET] (s_items_details s) = len (s_items_details s).
Proof.
  destruct (suggest_outfit_run self weather vibe occasion tp)
    as [w [outfit [q [tp' [_ [_ [Hshape [_ Hrun]]]]]]]].
  eexists; eexists; split; [exact Hrun |].
  cbn [s_outfit s_items_details].
  destruct (outfit_shape_entries _ _ Hshape) as [Hlen [Hskirt Hsum]].
  split; [now rewrite map_map |].
  unfold len in *. rewrite length_map.
  split; [exact Hlen |]. split; [| split; assumption].
  intros d Hd. apply in_map_iff in Hd as [x [<- Hx]]. apply in_map.
  apply outfit_shape_incl in Hshape. apply Hshape in Hx.
  apply filter_items_by_vibe_incl in Hx.
  now apply filter_items_by_weather_incl in Hx.
Qed.

Lemma append_assoc (a b c : string) : ((a ++ b) ++ c = a ++ (b ++ c))%string.
Proof.
  induction a as [| ch a IH]; [reflexivity |].
  change (String ch ((a ++ b) ++ c) = String ch (a ++ (b ++ c)))%string.
  now rewrite IH.
Qed.

Lemma reasoning_empty (weather vibe : string) :
  _generate_outfit_reasoning [] weather vibe =
    ("This combination matches your " ++ vibe ++ " vibe.")%string.
Proof.
  unfold _generate_outfit_reasoning. cbn [map app join].
  now rewrite !append_assoc.
Qed.

Lemma create_outfit_nil (tp : tape) :
  _create_outfit_combination [] tp = (Return [], tp).
Proof. reflexivity. Qed.

Lemma weather_enum_of_lower (weather : string) :
  weather_enum_of (lower weather) = weather_enum_of weather.
Proof. unfold weather_enum_of. now rewrite lower_idempotent. Qed.

(** X13. The case of the weather and of the vibe, and the occasion, do not
    change the outfit: under the same random choices the chosen items and
    the confidence are the same. *)
Theorem suggest_outfit_case_insensitive
    (weather vibe occasion occasion' : string) (tp : tape) :
  exists s s' tp',
    suggest_outfit self weather vibe occasion tp = (Return s, tp') /\
    suggest_outfit self (lower weather) (lower vibe) occasion' tp = (Return s', tp') /\
    s_outfit s = s_outfit s' /\
    s_items_details s = s_items_details s' /\
    s_confidence s = s_confidence s'.
Proof.
  destruct (suggest_outfit_run self weather vibe occasion tp)
    as [w [outfit [q [tp1 [Hw [Hc [_ [Hq Hrun]]]]]]]].
  destruct (suggest_outfit_run self (lower weather) (lower vibe) occasion' tp)
    as [w' [outfit' [q' [tp2 [Hw' [Hc' [_ [Hq' Hrun']]]]]]]].
  rewrite weather_enum_of_lower in Hw'. assert (w' = w) by congruence. subst w'.
  rewrite lower_idempotent in Hc'. rewrite Hc in Hc'.
  inversion Hc'; subst outfit' tp2.
  assert (Hqq : _calculate_outfit_confidence outfit w (lower vibe)
                = _calculate_outfit_confidence outfit w vibe) by reflexivity.
  rewrite Hqq, Hq in Hq'. inversion Hq'; subst q'.
  do 3 eexists. split; [exact Hrun |]. split; [exact Hrun' |].
  repeat split.
Qed.

(** X14. When no item of the wardrobe suits the weather band, in particular
    when the wardrobe is empty, the suggestion has an empty outfit, the
    confidence 0 and the closing sentence as its reasoning, and no random
    number is drawn. *)
Theorem suggest_outfit_no_candidates (weather vibe occasion : string)
    (w : WeatherType) (tp : tape) :
  weather_enum_of weather = Return w ->
  (forall item, In item (wardrobe self) ->
     weather_in w (weather_suitability item) = false) ->
  suggest_outfit self weather vibe occasion tp =
    (Return {| s_outfit := [];
               s_items_details := [];
               s_reasoning := ("This combination matches your " ++ vibe ++ " vibe.")%string;
               s_weather := weather;
               s_vibe := vibe;
               s_confidence := 0%Q |}, tp).
Proof.
  intros Hw Hnone.
  assert (Hf : _filter_items_by_weather self w = []).
  { unfold _filter_items_by_weather.
    induction (wardrobe self) as [| x l IH]; [reflexivity |].
    cbn [List.filter]. rewrite (Hnone x) by (now left).
    apply IH. intros item Hin. apply Hnone. now right. }
  assert (Hv : _filter_items_by_vibe self [] (lower vibe) = []).
  { unfold _filter_items_by_vibe. cbn [List.filter nonempty negb app].
    now destruct (true && word_in _ _). }
  unfold suggest_outfit, bind, lift. rewrite Hw, Hf, Hv, create_outfit_nil.
  unfold _calculate_outfit_confidence, ret. cbn [nonempty negb map].
  now rewrite reasoning_empty.
Qed.

End EngineMore.

Lemma suggest_outfit_no_candidates_witness :
  suggest_outfit {| wardrobe := []; outfit_rules := _initialize_outfit_rules |}
    "Cold" "Casual" "general" [7; 7]%nat =
    (Return {| s_outfit := [];
               s_items_details := [];
               s_reasoning := "This combination matches your Casual vibe.";
               s_weather := "Cold";
               s_vibe := "Casual";
               s_confidence := 0%Q |}, [7; 7]%nat).
Proof.
  apply (suggest_outfit_no_candidates
           {| wardrobe := []; outfit_rules := _initialize_outfit_rules |}
           "Cold" "Casual" "general" COLD [7; 7]%nat).
  - reflexivity.
  - intros item [].
Defined.

(** * Further properties of the vibe filter *)

Section VibeFilterMore.

Variable self : OutfitSuggestionEngine.t.

Lemma filter_all {A} (p : A -> bool) (xs : list A) :
  (forall x, In x xs -> p x = true) -> List.filter p xs = xs.
Proof.
  induction xs as [| x xs IH]; intros H; [reflexivity |].
  cbn [List.filter]. rewrite (H x) by (now left). f_equal.
  apply IH. intros y Hy. apply H. now right.
Qed.

(** X15. A vibe without a rule filters nothing. *)
Theorem filter_unknown_vibe (items : list ClothingItem) (vibe : string) :
  vibe_rules (outfit_rules self) !! vibe = None ->
  _filter_items_by_vibe self items vibe = items.
Proof.
  intros Hnone. unfold _filter_items_by_vibe. rewrite Hnone. cbv zeta.
  change (default no_rule None) with no_rule.
  rewrite (filter_all (vibe_keeps no_rule)) by reflexivity.
  destruct items as [| x items]; [| reflexivity].
  cbn [nonempty negb List.filter app]. now destruct (true && _).
Qed.

Lemma keeps_min_formality (rule : VibeRule) (m : Z) (x : ClothingItem) :
  min_formality rule = Some m -> vibe_keeps rule x = true -> m <= formality_level x.
Proof.
  intros Hm. unfold vibe_keeps. rewrite Hm.
  destruct (Z.ltb_spec (formality_level x) m); [discriminate | auto].
Qed.

Lemma professional_rule :
  min_formality (default no_rule (vibe_rules _initialize_outfit_rules !! "professional"))
    = Some 7.
Proof. vm_compute. reflexivity. Qed.

Lemma business_rule :
  min_formality (default no_rule (vibe_rules _initialize_outfit_rules !! "business"))
    = Some 8.
Proof. vm_compute. reflexivity. Qed.

(** X16. With the initial rules, a professional or business request keeps
    only items of formality 6 or more whenever the candidates have such
    an item. *)
Theorem filter_formal_vibe_formality (items : list ClothingItem) (vibe : string) :
  outfit_rules self = _initialize_outfit_rules ->
  vibe = "professional" \/ vibe = "business" ->
  (exists item, In item items /\ 6 <= formality_level item) ->
  forall item, In item (_filter_items_by_vibe self items vibe) ->
    6 <= formality_level item.
Proof.
  intros Hrules Hvibe [y [Hy Hfy]].
  assert (Hmin : exists m,
            min_formality (default no_rule (vibe_rules (outfit_rules self) !! vibe))
              = Some m /\ 6 <= m).
  { rewrite Hrules. destruct Hvibe as [-> | ->].
    - exists 7. split; [exact professional_rule | lia].
    - exists 8. split; [exact business_rule | lia]. }
  destruct Hmin as [m [Hm Hm6]].
  assert (Hword : word_in vibe ["professional"; "business"] = true).
  { destruct Hvibe as [-> | ->]; reflexivity. }
  unfold _filter_items_by_vibe. cbv zeta. rewrite Hword.
  set (rule := default no_rule (vibe_rules (outfit_rules self) !! vibe)) in *.
  destruct (List.filter (vibe_keeps rule) items) as [| x strict] eqn:Hstrict.
  - cbn [nonempty negb andb app].
    assert (Hne : nonempty (List.filter (fun item => formality_level item >=? 6) items)
                  = true).
    { apply (nonempty_in y). apply List.filter_In. split; [assumption |].
      now apply Z.geb_le. }
    rewrite Hne. intros item Hin. apply List.filter_In in Hin as [_ Hin].
    now apply Z.geb_le.
  - cbn [nonempty negb andb]. intros item Hin. rewrite <- Hstrict in Hin.
    apply List.filter_In in Hin as [_ Hin].
    pose proof (keeps_min_formality rule m item Hm Hin). lia.
Qed.

End VibeFilterMore.

Lemma filter_unknown_vibe_witness :
  _filter_items_by_vibe init _initialize_sample_wardrobe "unknownvibe"
    = _initialize_sample_wardrobe.
Proof.
  apply (filter_unknown_vibe init _initialize_sample_wardrobe "unknownvibe").
  vm_compute. reflexivity.
Defined.

Lemma filter_formal_vibe_formality_witness :
  6 <= formality_level
         (item "Summer Dress" DRESS CASUAL [HOT; WARM] "floral" ["spring"; "summer"] 6 2).
Proof.
  apply (filter_formal_vibe_formality init (_filter_items_by_weather init HOT) "business").
  - reflexivity.
  - now right.
  - exists (item "Summer Dress" DRESS CASUAL [HOT; WARM] "floral" ["spring"; "summer"] 6 2).
    split; [vm_compute; auto | vm_compute; discriminate].
  - vm_compute. auto.
Defined.

(** * Further properties of the request parsers *)

Section ParsersMore.

Lemma any_in_incl (small large : list string) (text : string) :
  incl small large -> any_in small text = true -> any_in large text = true.
Proof.
  intros Hincl H. unfold any_in in *.
  apply existsb_exists in H as [k [Hk Hs]]. apply existsb_exists. eauto.
Qed.

Ltac split_ifs :=
  repeat match goal with
         | |- context [if ?b then _ else _] => destruct b
         end.

(** X17. The rule-based parser only produces a weather the engine recognises,
    never warm or snowy, and a vibe that has a rule in the initial
    rules. *)
Theorem fallback_parser_recognised (text_lower : string) :
  exists w,
    WeatherType_of_value (lower (ClothingAI.fallback_weather text_lower)) = Return w /\
    In w [HOT; COLD; RAINY; COOL; MILD] /\
    In (ClothingAI.fallback_vibe text_lower)
       ["business"; "professional"; "trendy"; "sporty"; "casual"] /\
    vibe_rules _initialize_outfit_rules !! lower (ClothingAI.fallback_vibe text_lower)
      <> None.
Proof.
  unfold ClothingAI.fallback_weather, ClothingAI.fallback_vibe. cbv zeta.
  split_ifs; eexists; (split; [reflexivity |]);
    (split; [cbn; tauto |]); (split; [cbn; tauto |]);
    vm_compute; discriminate.
Qed.

(** X18. The keyword extractors only produce a weather among hot, cold, rainy
    and mild, all recognised by the engine, a vibe that has a rule in the
    initial rules, and one of five occasions. *)
Theorem extractors_recognised (text : string) :
  exists w,
    WeatherType_of_value
      (lower (HuggingFaceIntegration._extract_weather_from_text text)) = Return w /\
    In w [HOT; COLD; RAINY; MILD] /\
    vibe_rules _initialize_outfit_rules
      !! lower (HuggingFaceIntegration._extract_vibe_from_text text) <> None /\
    In (HuggingFaceIntegration._extract_occasion_from_text text)
       ["date"; "work"; "party"; "casual"; "general"].
Proof.
  unfold HuggingFaceIntegration._extract_weather_from_text,
    HuggingFaceIntegration._extract_vibe_from_text,
    HuggingFaceIntegration._extract_occasion_from_text,
    HuggingFaceIntegration.weather_patterns, HuggingFaceIntegration.vibe_patterns,
    HuggingFaceIntegration.occasion_patterns.
  cbn [HuggingFaceIntegration.first_pattern].
  split_ifs; eexists; (split; [reflexivity |]);
    (split; [cbn; tauto |]); (split; [vm_compute; discriminate |]);
    cbn; tauto.
Qed.

(** X19. The two parsers agree on the strongest cues: a request with
    "business", "meeting" or "presentation" is a business request for
    both, and one with "hot", "warm", "summer" or "sunny" is a request
    for hot weather for both. *)
Theorem parsers_agree_on_cues (text : string) :
  (any_in ["business"; "meeting"; "presentation"] (lower text) = true ->
     ClothingAI.fallback_vibe (lower text) = "business" /\
     HuggingFaceIntegration._extract_vibe_from_text text = "business") /\
  (any_in ["hot"; "warm"; "summer"; "sunny"] (lower text) = true ->
     ClothingAI.fallback_weather (lower text) = "hot" /\
     HuggingFaceIntegration._extract_weather_from_text text = "hot").
Proof.
  split; intros H.
  - unfold ClothingAI.fallback_vibe, HuggingFaceIntegration._extract_vibe_from_text,
      HuggingFaceIntegration.vibe_patterns.
    cbn [HuggingFaceIntegration.first_pattern]. cbv zeta. rewrite H.
    rewrite (any_in_incl ["business"; "meeting"; "presentation"]
               ["business"; "meeting"; "presentation"; "office"; "formal"; "suit"]
               _ ltac:(intros k Hk; cbn in Hk |- *; tauto) H).
    rewrite (any_in_incl ["business"; "meeting"; "presentation"]
               ["business"; "meeting"; "presentation"; "corporate"; "executive"]
               _ ltac:(intros k Hk; cbn in Hk |- *; tauto) H).
    split; reflexivity.
  - unfold ClothingAI.fallback_weather, HuggingFaceIntegration._extract_weather_from_text,
      HuggingFaceIntegration.weather_patterns.
    cbn [HuggingFaceIntegration.first_pattern]. cbv zeta.
    rewrite (any_in_incl ["hot"; "warm"; "summer"; "sunny"]
               ["hot"; "warm"; "summer"; "sunny"; "beach"]
               _ ltac:(intros k Hk; cbn in Hk |- *; tauto) H).
    rewrite (any_in_incl ["hot"; "warm"; "summer"; "sunny"]
               ["hot"; "sunny"; "warm"; "summer"; "heat"]
               _ ltac:(intros k Hk; cbn in Hk |- *; tauto) H).
    split; reflexivity.
Qed.

(** X20. The parsers do not depend on the case of the request. *)
Theorem parsers_case_insensitive (text : string) :
  HuggingFaceIntegration._extract_weather_from_text (lower text)
    = HuggingFaceIntegration._extract_weather_from_text text /\
  HuggingFaceIntegration._extract_vibe_from_text (lower text)
    = HuggingFaceIntegration._extract_vibe_from_text text /\
  HuggingFaceIntegration._extract_occasion_from_text (lower text)
    = HuggingFaceIntegration._extract_occasion_from_text text /\
  forall engine,
    ClothingAI._fallback_text_parsing engine (lower text)
      = ClothingAI._fallback_text_parsing engine text.
Proof.
  unfold HuggingFaceIntegration._extract_weather_from_text,
    HuggingFaceIntegration._extract_vibe_from_text,
    HuggingFaceIntegration._extract_occasion_from_text,
    ClothingAI._fallback_text_parsing.
  rewrite lower_idempotent. repeat split.
Qed.

End ParsersMore.

(** * Properties of the facade *)

Section FacadeMore.

Variable Sentiment : Type.

(** X21. A request in natural language always gets a suggestion, whatever the
    language integration does.  Without an analysis the result is the one
    of the rule-based parser and has no analysis attached; with an
    analysis it is the suggestion for the analysed weather, vibe and
    occasion, with the analysis attached. *)
Theorem suggest_outfit_from_text_returns (self : ClothingAI.t Sentiment) (request_text : string) (tp : tape) :
  exists r tp',
    ClothingAI.suggest_outfit_from_text Sentiment self request_text tp = (Return r, tp') /\
    match HuggingFaceIntegration.analyze_outfit_request Sentiment
            (ClothingAI.hf_integration Sentiment self) request_text with
    | HuggingFaceIntegration.Analysed _ a =>
        ClothingAI.ts_natural_language_analysis Sentiment r = Some a /\
        suggest_outfit (ClothingAI.suggestion_engine Sentiment self)
          (HuggingFaceIntegration.a_weather Sentiment a)
          (HuggingFaceIntegration.a_vibe Sentiment a)
          (HuggingFaceIntegration.a_occasion Sentiment a) tp
          = (Return (ClothingAI.ts_suggestion Sentiment r), tp')
    | _ =>
        ClothingAI.ts_natural_language_analysis Sentiment r = None /\
        ClothingAI._fallback_text_parsing
          (ClothingAI.suggestion_engine Sentiment self) request_text tp
          = (Return (ClothingAI.ts_suggestion Sentiment r), tp')
    end.
Proof.
  unfold ClothingAI.suggest_outfit_from_text. cbv zeta.
  set (engine := ClothingAI.suggestion_engine Sentiment self).
  assert (Hfallback : exists s tp',
            ClothingAI._fallback_text_parsing engine request_text tp = (Return s, tp')).
  { unfold ClothingAI._fallback_text_parsing. cbv zeta.
    destruct (suggest_outfit_run engine
                (ClothingAI.fallback_weather (lower request_text))
                (ClothingAI.fallback_vibe (lower request_text)) "general" tp)
      as [w [outfit [q [tp' [_ [_ [_ [_ Hrun]]]]]]]]. eauto. }
  destruct Hfallback as [s [tp' Hs]].
  unfold HuggingFaceIntegration.analyze_outfit_request.
  destruct (HuggingFaceIntegration.available Sentiment
              (ClothingAI.hf_integration Sentiment self)); cbn [negb]; cbv iota zeta.
  - destruct (HuggingFaceIntegration.classifier Sentiment
                (ClothingAI.hf_integration Sentiment self)) as [pipeline |].
    + destruct (pipeline request_text) as [sentiment |].
      * cbn [HuggingFaceIntegration.a_weather HuggingFaceIntegration.a_vibe
             HuggingFaceIntegration.a_occasion].
        destruct (suggest_outfit_run engine
                    (HuggingFaceIntegration._extract_weather_from_text request_text)
                    (HuggingFaceIntegration._extract_vibe_from_text request_text)
                    (HuggingFaceIntegration._extract_occasion_from_text request_text) tp)
          as [w [outfit [q [tp1 [_ [_ [_ [_ Hrun]]]]]]]].
        do 2 eexists. unfold bind at 1. rewrite Hrun. unfold ret.
        split; [reflexivity |]. split; reflexivity.
      * do 2 eexists. unfold bind at 1. rewrite Hs. unfold ret.
        split; [reflexivity |]. split; reflexivity.
    + cbn [HuggingFaceIntegration.a_weather HuggingFaceIntegration.a_vibe
           HuggingFaceIntegration.a_occasion].
      destruct (suggest_outfit_run engine
                  (HuggingFaceIntegration._extract_weather_from_text request_text)
                  (HuggingFaceIntegration._extract_vibe_from_text request_text)
                  (HuggingFaceIntegration._extract_occasion_from_text request_text) tp)
        as [w [outfit [q [tp1 [_ [_ [_ [_ Hrun]]]]]]]].
      do 2 eexists. unfold bind at 1. rewrite Hrun. unfold ret.
      split; [reflexivity |]. split; reflexivity.
  - do 2 eexists. unfold bind at 1. rewrite Hs. unfold ret.
    split; [reflexivity |]. split; reflexivity.
Qed.

Lemma bump_lookup (counts : gmap string Z) (key k : string) :
  ClothingAI.bump counts key !! k =
    if String.eqb key k then Some (default 0 (counts !! key) + 1) else counts !! k.
Proof.
  unfold ClothingAI.bump. destruct (String.eqb_spec key k) as [-> | Hne].
  - apply lookup_insert_eq.
  - now apply lookup_insert_ne.
Qed.

(** The entries of a distribution after a loop of increments. *)
Lemma bump_fold_lookup (key : ClothingItem -> string) (wardrobe : list ClothingItem)
    (counts : gmap string Z) (k : string) :
  (forall k' n, counts !! k' = Some n -> 1 <= n) ->
  let n := count_if (fun item => String.eqb (key item) k) wardrobe in
  fold_left (fun counts item => ClothingAI.bump counts (key item)) wardrobe counts !! k =
    if n =? 0 then counts !! k else Some (default 0 (counts !! k) + n).
Proof.
  revert counts. induction wardrobe as [| x wardrobe IH]; intros counts Hpos;
    [reflexivity |].
  cbv zeta. cbn [fold_left]. rewrite count_if_cons.
  pose proof (count_if_bounds (fun item => String.eqb (key item) k) wardrobe) as Hb.
  set (n := count_if (fun item => String.eqb (key item) k) wardrobe) in *.
  assert (Hpos' : forall k' m, ClothingAI.bump counts (key x) !! k' = Some m -> 1 <= m).
  { intros k' m. rewrite bump_lookup. destruct (String.eqb (key x) k').
    - intros [= <-]. destruct (counts !! key x) as [c |] eqn:E; cbn; [| lia].
      specialize (Hpos _ _ E). lia.
    - apply Hpos. }
  specialize (IH (ClothingAI.bump counts (key x)) Hpos'). cbv zeta in IH.
  fold n in IH. rewrite IH, bump_lookup. clearbody n.
  destruct (String.eqb_spec (key x) k) as [-> | Hne].
  - destruct (Z.eqb_spec (1 + n) 0) as [H0 | _]; [lia |].
    destruct (Z.eqb_spec n 0) as [Hn | Hn]; cbn [default]; unfold id; f_equal; lia.
  - replace (0 + n) with n by lia. reflexivity.
Qed.

Lemma summary_fold (wardrobe : list ClothingItem) (types styles : gmap string Z) :
  fold_left
    (fun counts item =>
       (ClothingAI.bump (fst counts) (ClothingType_value (type item)),
        ClothingAI.bump (snd counts) (Style_value (style item))))
    wardrobe (types, styles) =
  (fold_left (fun counts item => ClothingAI.bump counts (ClothingType_value (type item)))
     wardrobe types,
   fold_left (fun counts item => ClothingAI.bump counts (Style_value (style item)))
     wardrobe styles).
Proof.
  revert types styles. induction wardrobe as [| x wardrobe IH]; intros types styles;
    [reflexivity |].
  cbn [fold_left fst snd]. apply IH.
Qed.

(** X22. The summary counts the wardrobe: the total is its length, the items
    are listed in wardrobe order, and each distribution maps a type, or
    style, value to the number of items that have it, with no entry for a
    value no item has. *)
Theorem wardrobe_summary_counts (self : ClothingAI.t Sentiment) :
  let wardrobe := wardrobe (ClothingAI.suggestion_engine Sentiment self) in
  let summary := ClothingAI.get_wardrobe_summary Sentiment self in
  ClothingAI.sum_total_items summary = len wardrobe /\
  ClothingAI.sum_items summary = map details_of wardrobe /\
  (forall k, ClothingAI.sum_types_distribution summary !! k
             = count_entry (count_type_value k wardrobe)) /\
  (forall k, ClothingAI.sum_styles_distribution summary !! k
             = count_entry (count_style_value k wardrobe)).
Proof.
  cbv zeta. unfold ClothingAI.get_wardrobe_summary. cbv zeta.
  cbn [ClothingAI.sum_total_items ClothingAI.sum_items
       ClothingAI.sum_types_distribution ClothingAI.sum_styles_distribution].
  rewrite summary_fold. cbn [fst snd].
  split; [reflexivity |]. split; [reflexivity |].
  split; intros k;
    rewrite (bump_fold_lookup _ _ ∅ k) by (intros k' n; rewrite lookup_empty; discriminate);
    rewrite lookup_empty; cbn [default]; unfold count_entry, count_type_value,
      count_style_value;
    match goal with |- context [?n =? 0] => destruct (n =? 0) end; reflexivity.
Qed.

(** X23. Adding an item appends it: in the summary the total grows by one, the
    item is listed last, and its type and its style are counted once
    more; the rules and the language integration are unchanged. *)
Theorem add_clothing_item_summary (self : ClothingAI.t Sentiment) (item : ClothingItem) :
  let before := ClothingAI.get_wardrobe_summary Sentiment self in
  let after :=
    ClothingAI.get_wardrobe_summary Sentiment
      (ClothingAI.add_clothing_item Sentiment self item) in
  ClothingAI.sum_total_items after = ClothingAI.sum_total_items before + 1 /\
  ClothingAI.sum_items after = ClothingAI.sum_items before ++ [details_of item] /\
  ClothingAI.sum_types_distribution after =
    ClothingAI.bump (ClothingAI.sum_types_distribution before)
      (ClothingType_value (type item)) /\
  ClothingAI.sum_styles_distribution after =
    ClothingAI.bump (ClothingAI.sum_styles_distribution before)
      (Style_value (style item)) /\
  outfit_rules (ClothingAI.suggestion_engine Sentiment
                  (ClothingAI.add_clothing_item Sentiment self item))
    = outfit_rules (ClothingAI.suggestion_engine Sentiment self) /\
  ClothingAI.hf_integration Sentiment (ClothingAI.add_clothing_item Sentiment self item)
    = ClothingAI.hf_integration Sentiment self.
Proof.
  cbv zeta. unfold ClothingAI.get_wardrobe_summary, ClothingAI.add_clothing_item.
  cbv zeta.
  cbn [ClothingAI.sum_total_items ClothingAI.sum_items
       ClothingAI.sum_types_distribution ClothingAI.sum_styles_distribution
       ClothingAI.suggestion_engine ClothingAI.hf_integration wardrobe outfit_rules].
  rewrite fold_left_app, !summary_fold. cbn [fold_left fst snd].
  repeat split.
  - unfold len. rewrite List.length_app. cbn [List.length]. lia.
  - now rewrite map_app.
Qed.

(** X24. An added item is a candidate for every weather band it suits, and
    the candidates there were remain, in their order. *)
Theorem add_clothing_item_candidates (self : ClothingAI.t Sentiment) (item : ClothingItem) (w : WeatherType) :
  _filter_items_by_weather
    (ClothingAI.suggestion_engine Sentiment (ClothingAI.add_clothing_item Sentiment self item)) w
  = _filter_items_by_weather (ClothingAI.suggestion_engine Sentiment self) w
    ++ (if weather_in w (weather_suitability item) then [item] else []).
Proof.
  unfold _filter_items_by_weather, ClothingAI.add_clothing_item.
  cbn [ClothingAI.suggestion_engine wardrobe].
  rewrite List.filter_app. cbn [List.filter]. reflexivity.
Qed.

End FacadeMore.

(** * The weather band and the confidence of an outfit *)

Section BandsAndConfidence.

(** X25. Reading the value of a weather band gives back the band, and a
    string read as a band is the value of that band; the engine reads
    every weather string as the band whose value is the lower-cased
    string, or else as mild. *)
Theorem weather_value_round_trip :
  (forall w, WeatherType_of_value (WeatherType_value w) = Return w) /\
  (forall w, weather_enum_of (WeatherType_value w) = Return w) /\
  (forall value w, WeatherType_of_value value = Return w -> value = WeatherType_value w) /\
  (forall weather, weather_enum_of weather = Return MILD \/
                   exists w, lower weather = WeatherType_value w /\
                             weather_enum_of weather = Return w).
Proof.
  split; [intros w; destruct w; reflexivity |].
  split; [intros w; destruct w; reflexivity |].
  assert (Hinv : forall value w,
            WeatherType_of_value value = Return w -> value = WeatherType_value w).
  { intros value w. unfold WeatherType_of_value.
    destruct (find _ _) as [w' |] eqn:E; [| discriminate].
    intros [= <-]. apply find_some in E as [_ E]. apply String.eqb_eq in E. now symmetry. }
  split; [exact Hinv |].
  intros weather. unfold weather_enum_of.
  destruct (WeatherType_of_value (lower weather)) as [w | e] eqn:E.
  - right. exists w. split; [now apply Hinv | reflexivity].
  - left. now apply WeatherType_of_value_raises in E as ->.
Qed.

(** X26. The confidence of any outfit, chosen by the engine or not, lies
    between 0 and 1; it is 0 exactly when no item of the outfit suits the
    band, and 1 exactly when the outfit is not empty and every item
    does. *)
Theorem outfit_confidence_range (outfit : list ClothingItem) (w : WeatherType)
    (vibe : string) :
  exists q,
    _calculate_outfit_confidence outfit w vibe = Return q /\
    (0 <= q <= 1)%Q /\
    ((q == 0)%Q <->
       forall item, In item outfit -> weather_in w (weather_suitability item) = false) /\
    ((q == 1)%Q <->
       outfit <> [] /\
       forall item, In item outfit -> weather_in w (weather_suitability item) = true).
Proof.
  destruct (calculate_outfit_confidence_returns outfit w vibe) as [q [Hq [Hempty Hsome]]].
  exists q. split; [exact Hq |].
  set (p := fun item => weather_in w (weather_suitability item)) in *.
  assert (Hzero : count_if p outfit = 0 <-> forall item, In item outfit -> p item = false).
  { unfold count_if. clear. induction outfit as [| x l IH]; cbn [List.filter].
    - split; [intros _ item [] | reflexivity].
    - destruct (p x) eqn:Hx.
      + cbn [List.length]. split; [lia |]. intros H.
        rewrite (H x) in Hx by (now left). discriminate.
      + rewrite IH. split.
        * intros H item [<- | Hin]; auto.
        * intros H item Hin. apply H. now right. }
  assert (Hall : count_if p outfit = len outfit <->
                 forall item, In item outfit -> p item = true).
  { split; [| apply count_if_all].
    unfold count_if, len. clear. induction outfit as [| x l IH]; cbn [List.filter].
    - intros _ item [].
    - pose proof (List.filter_length_le p l) as Hle.
      destruct (p x) eqn:Hx; cbn [List.length].
      + intros H item [<- | Hin]; [assumption |]. apply IH; [lia | assumption].
      + lia. }
  destruct outfit as [| x outfit].
  - rewrite Hempty by reflexivity. split; [split; discriminate |]. split.
    + split; [intros _ item [] | reflexivity].
    + split; [discriminate |]. intros [H _]. now contradiction H.
  - assert (Hne : x :: outfit <> []) by discriminate.
    rewrite (Hsome Hne). pose proof (len_pos _ Hne) as Hlen.
    pose proof (count_if_bounds p (x :: outfit)) as Hb.
    split; [now apply quotient_bounds |]. split.
    + rewrite quotient_zero by assumption. exact Hzero.
    + split.
      * intros H1. split; [assumption |]. apply Hall.
        revert H1. generalize (count_if p (x :: outfit)) (len (x :: outfit)) Hlen.
        intros k n Hn. destruct n as [| n | n]; try lia.
        unfold Qdiv, Qinv, Qmult, Qeq, inject_Z. cbn. lia.
      * intros [_ H]. apply Hall in H. rewrite H. now apply quotient_one.
Qed.

End BandsAndConfidence.
